(** * A shallow embedding of [src/monitor.py] (CPU/memory monitor)

    Python values are modelled as follows:
    - [int] is [Z];
    - [float] is the primitive binary64 [float] of Rocq (the same IEEE-754
      format as CPython's [float]); general facts about float operations go
      through [Prim2SF] and the bit-level specification [SpecFloat];
    - [str] is [string]; a character is an [ascii] read as the Unicode code
      point below 256 with the same number (Latin-1);
    - raised exceptions are the [Raise] branch of the result type [res]. *)

From Stdlib Require Import ZArith Lia Bool List String Ascii.
From Stdlib Require Import Floats.
Import ListNotations.
Open Scope Z_scope.

(** ** Exceptions and the result monad *)

Inductive py_exc :=
| TypeError
| ValueError
| IndexError
| ZeroDivisionError
| OverflowError
| FileNotFoundError
| CsvError.

Inductive res (A : Type) : Type :=
| Ok (a : A)
| Raise (e : py_exc).
Arguments Ok {A} a.
Arguments Raise {A} e.

Definition bind {A B} (m : res A) (k : A -> res B) : res B :=
  match m with
  | Ok a => k a
  | Raise e => Raise e
  end.

Notation "x <- m ;; k" := (bind m (fun x => k))
  (at level 61, m at next level, right associativity).

(** [try: m except <exceptions selected by catch>: h] *)
Definition py_try {A} (m : res A) (catch : py_exc -> bool) (h : res A) : res A :=
  match m with
  | Raise e => if catch e then h else m
  | Ok _ => m
  end.

Fixpoint py_map {A B} (f : A -> res B) (l : list A) : res (list B) :=
  match l with
  | [] => Ok []
  | x :: l' => y <- f x ;; ys <- py_map f l' ;; Ok (y :: ys)
  end.

(** [l[i]] for a non-negative index. *)
Definition py_index {A} (l : list A) (i : nat) : res A :=
  match nth_error l i with
  | Some a => Ok a
  | None => Raise IndexError
  end.

(** [l[i] = v] with Python's reading of negative indices. *)
Definition py_list_set {A} (l : list A) (i : Z) (v : A) : res (list A) :=
  let n := Z.of_nat (List.length l) in
  let j := if i <? 0 then i + n else i in
  if (0 <=? j) && (j <? n) then
    Ok (firstn (Z.to_nat j) l ++ v :: skipn (S (Z.to_nat j)) l)
  else Raise IndexError.

(** ** Strings *)

Definition code (c : ascii) : Z := Z.of_nat (nat_of_ascii c).

(** [str.isspace] on the code points below 256. *)
Definition is_space (c : ascii) : bool :=
  let n := code c in
  ((9 <=? n) && (n <=? 13)) || ((28 <=? n) && (n <=? 32)) || (n =? 133) || (n =? 160).

Definition is_digit (c : ascii) : bool :=
  let n := code c in (48 <=? n) && (n <=? 57).

Definition digit_val (c : ascii) : Z := code c - 48.

Fixpoint split_ws_go (l : list ascii) (cur : list ascii) : list string :=
  match l with
  | [] => match cur with [] => [] | _ => [string_of_list_ascii (rev cur)] end
  | c :: l' =>
      if is_space c then
        match cur with
        | [] => split_ws_go l' []
        | _ => string_of_list_ascii (rev cur) :: split_ws_go l' []
        end
      else split_ws_go l' (c :: cur)
  end.

(** [s.split()] *)
Definition py_split_ws (s : string) : list string :=
  split_ws_go (list_ascii_of_string s) [].

Fixpoint drop_space (l : list ascii) : list ascii :=
  match l with
  | c :: l' => if is_space c then drop_space l' else l
  | [] => []
  end.

(** [s.strip()] *)
Definition py_strip (s : string) : string :=
  string_of_list_ascii (rev (drop_space (rev (drop_space (list_ascii_of_string s))))).

(** [s.startswith(p)] *)
Definition py_startswith (s p : string) : bool := String.prefix p s.

(** [s.split(sep, 1)] for a one-character separator: [None] when [sep] does
    not occur, so that unpacking the result into two names fails. *)
Fixpoint split_once (sep : ascii) (s : string) : option (string * string) :=
  match s with
  | EmptyString => None
  | String c s' =>
      if Ascii.eqb c sep then Some (EmptyString, s')
      else match split_once sep s' with
           | Some (a, b) => Some (String c a, b)
           | None => None
           end
  end.

(** The lines produced by iterating over a file opened in text mode with
    universal newlines: ["\n"], ["\r"] and ["\r\n"] each end a line and
    are read as ["\n"]; each line keeps its ["\n"], the last one may lack
    it, and there is no empty last line. *)
Fixpoint file_lines_go (l : list ascii) (cur : list ascii) : list string :=
  match l with
  | [] => match cur with [] => [] | _ => [string_of_list_ascii (rev cur)] end
  | c :: l' =>
      if Ascii.eqb c "010"%char then string_of_list_ascii (rev (c :: cur)) :: file_lines_go l' []
      else if Ascii.eqb c "013"%char then
        let line := string_of_list_ascii (rev ("010"%char :: cur)) in
        match l' with
        | c' :: l'' =>
            if Ascii.eqb c' "010"%char then line :: file_lines_go l'' []
            else line :: file_lines_go l' []
        | [] => [line]
        end
      else file_lines_go l' (c :: cur)
  end.

Definition py_file_lines (s : string) : list string :=
  file_lines_go (list_ascii_of_string s) [].

(** The line boundaries of [str.splitlines] below code point 256:
    \n, \r, \x0b, \x0c, \x1c, \x1d, \x1e and \x85 ("\r\n" counts as one). *)
Definition is_line_break (c : ascii) : bool :=
  let n := code c in
  (n =? 10) || (n =? 11) || (n =? 12) || (n =? 13) || (n =? 28) || (n =? 29)
  || (n =? 30) || (n =? 133).

Fixpoint splitlines_go (l : list ascii) (cur : list ascii) : list string :=
  match l with
  | [] => match cur with [] => [] | _ => [string_of_list_ascii (rev cur)] end
  | c :: l' =>
      if is_line_break c then
        let line := string_of_list_ascii (rev cur) in
        if code c =? 13 then
          match l' with
          | c' :: l'' =>
              if code c' =? 10 then line :: splitlines_go l'' []
              else line :: splitlines_go l' []
          | [] => [line]
          end
        else line :: splitlines_go l' []
      else splitlines_go l' (c :: cur)
  end.

(** [s.splitlines()] *)
Definition py_splitlines (s : string) : list string :=
  splitlines_go (list_ascii_of_string s) [].

(** ** Numbers *)

(** A run of decimal digits in which single underscores may separate two
    digits (the digit groups of [int()] and [float()]); returns the value and
    the number of digits. *)
Fixpoint digitpart_go (l : list ascii) (acc n : Z) : option (Z * Z) :=
  match l with
  | [] => Some (acc, n)
  | c :: l' =>
      if is_digit c then digitpart_go l' (acc * 10 + digit_val c) (n + 1)
      else if Ascii.eqb c "_"%char then
        match l' with
        | d :: l'' =>
            if is_digit d then digitpart_go l'' (acc * 10 + digit_val d) (n + 1)
            else None
        | [] => None
        end
      else None
  end.

Definition parse_digitpart (l : list ascii) : option (Z * Z) :=
  match l with
  | d :: l' => if is_digit d then digitpart_go l' (digit_val d) 1 else None
  | [] => None
  end.

(** An optional leading sign: [true] for a minus. *)
Definition take_sign (l : list ascii) : bool * list ascii :=
  match l with
  | c :: l' =>
      if Ascii.eqb c "-"%char then (true, l')
      else if Ascii.eqb c "+"%char then (false, l')
      else (false, l)
  | [] => (false, l)
  end.

(** [int(s)] for a [str] argument, base 10. *)
Definition py_int (s : string) : res Z :=
  let '(neg, l) := take_sign (list_ascii_of_string (py_strip s)) in
  match parse_digitpart l with
  | Some (v, _) => Ok (if neg then - v else v)
  | None => Raise ValueError
  end.

Fixpoint split_first (p : ascii -> bool) (l : list ascii) : list ascii * option (list ascii) :=
  match l with
  | [] => ([], None)
  | c :: l' =>
      if p c then ([], Some l')
      else let '(a, b) := split_first p l' in (c :: a, b)
  end.

Definition lower (c : ascii) : ascii :=
  let n := code c in
  if (65 <=? n) && (n <=? 90) then ascii_of_nat (Z.to_nat (n + 32)) else c.

(** The binary64 value nearest to [(-1)^neg * M * 10^D] (ties to even), as
    CPython's correctly rounded string conversion computes it. *)
Definition sf_of_decimal (neg : bool) (M D : Z) : spec_float :=
  if M =? 0 then S754_zero neg
  else if 0 <=? D then
    binary_normalize prec emax (if neg then - (M * 10 ^ D) else M * 10 ^ D) 0 neg
  else
    SFdiv prec emax (S754_finite neg (Z.to_pos M) 0)
      (S754_finite false (Z.to_pos (10 ^ (- D))) 0).

(** The mantissa of a decimal literal: digits, a point, digits. *)
Definition parse_mantissa (l : list ascii) : option (Z * Z) :=
  match split_first (fun c => Ascii.eqb c "."%char) l with
  | (ip, None) => match parse_digitpart ip with
                  | Some (v, _) => Some (v, 0)
                  | None => None
                  end
  | ([], Some fp) => match parse_digitpart fp with
                     | Some (v, n) => Some (v, n)
                     | None => None
                     end
  | (ip, Some []) => match parse_digitpart ip with
                     | Some (v, _) => Some (v, 0)
                     | None => None
                     end
  | (ip, Some fp) =>
      match parse_digitpart ip, parse_digitpart fp with
      | Some (v, _), Some (w, n) => Some (v * 10 ^ n + w, n)
      | _, _ => None
      end
  end.

Definition parse_exponent (l : option (list ascii)) : option Z :=
  match l with
  | None => Some 0
  | Some l =>
      let '(neg, l') := take_sign l in
      match parse_digitpart l' with
      | Some (v, _) => Some (if neg then - v else v)
      | None => None
      end
  end.

(** [float(s)] for a [str] argument. *)
Definition py_float (s : string) : res float :=
  let '(neg, l) := take_sign (list_ascii_of_string (py_strip s)) in
  let w := string_of_list_ascii (map lower l) in
  if String.eqb w "inf" || String.eqb w "infinity" then
    Ok (if neg then neg_infinity else infinity)
  else if String.eqb w "nan" then Ok nan
  else
    let '(ml, el) := split_first (fun c => Ascii.eqb (lower c) "e"%char) l in
    match parse_mantissa ml, parse_exponent el with
    | Some (M, k), Some x => Ok (SF2Prim (sf_of_decimal neg M (x - k)))
    | _, _ => Raise ValueError
    end.

Definition sf_of_Z (n : Z) : spec_float :=
  match n with
  | Z0 => S754_zero false
  | Zpos p => S754_finite false p 0
  | Zneg p => S754_finite true p 0
  end.

Definition is_inf (x : spec_float) : bool :=
  match x with S754_infinity _ => true | _ => false end.

(** [a / b] on two [int]s: the correctly rounded quotient. *)
Definition py_int_truediv (a b : Z) : res float :=
  if b =? 0 then Raise ZeroDivisionError
  else
    let r := SFdiv prec emax (sf_of_Z a) (sf_of_Z b) in
    if is_inf r then Raise OverflowError else Ok (SF2Prim r).

(** The conversion of an [int] operand of a mixed [float]/[int] operation. *)
Definition py_int_to_float (n : Z) : res float :=
  let r := binary_normalize prec emax n 0 false in
  if is_inf r then Raise OverflowError else Ok (SF2Prim r).

(** [m * 2^e] rounded to an integer, ties to even ([m >= 0]). *)
Definition round_half_even (m e : Z) : Z :=
  if 0 <=? e then m * 2 ^ e
  else
    let d := 2 ^ (- e) in
    let q := m / d in
    match Z.compare (2 * (m mod d)) d with
    | Lt => q
    | Gt => q + 1
    | Eq => if Z.even q then q else q + 1
    end.

(** [round(x)] for a [float] [x]: an [int]. *)
Definition py_round (x : float) : res Z :=
  match Prim2SF x with
  | S754_nan => Raise ValueError
  | S754_infinity _ => Raise OverflowError
  | S754_zero _ => Ok 0
  | S754_finite s m e =>
      let r := round_half_even (Zpos m) e in Ok (if s then - r else r)
  end.

(** ** Formatting *)

Definition digit_char (d : Z) : ascii := ascii_of_nat (Z.to_nat (48 + d)).

Fixpoint dec_go (fuel : nat) (n : Z) (acc : string) : string :=
  match fuel with
  | O => acc
  | S f =>
      let acc' := String (digit_char (n mod 10)) acc in
      if n <? 10 then acc' else dec_go f (n / 10) acc'
  end.

(** [str(n)] for [n >= 0]. *)
Definition dec (n : Z) : string := dec_go (S (Z.to_nat (Z.log2 n))) n EmptyString.

Definition sign_str (s : bool) : string := if s then "-" else EmptyString.

(** [format(x, '.1f')] *)
Definition fixed1 (x : float) : string :=
  match Prim2SF x with
  | S754_nan => "nan"
  | S754_infinity s => sign_str s ++ "inf"
  | S754_zero s => sign_str s ++ "0.0"
  | S754_finite s m e =>
      let N := round_half_even (Zpos m * 10) e in
      sign_str s ++ dec (N / 10) ++ "." ++ dec (N mod 10)
  end.

Fixpoint spaces (n : nat) : string :=
  match n with O => EmptyString | S k => String " " (spaces k) end.

(** Right alignment in a field of [w] characters. *)
Definition pad_left (w : nat) (s : string) : string := spaces (w - String.length s) ++ s.

(** [format(x, '5.1f')] *)
Definition fmt_5_1f (x : float) : string := pad_left 5 (fixed1 x).

(** ** [csv.reader] on one line, default ("excel") dialect

    The states and transitions of CPython's [_csv] parser for delimiter
    [','], quote character [quote_char] (code point 34), [doublequote=True],
    no escape character,
    [skipinitialspace=False] and [strict=False]; [None] is the end-of-line
    event the parser receives after the characters of a line. *)

Inductive csv_state :=
| START_RECORD
| START_FIELD
| IN_FIELD
| IN_QUOTED_FIELD
| QUOTE_IN_QUOTED_FIELD
| EAT_CRNL.

Record csv_reader := mk_reader {
  rd_state : csv_state;
  rd_fields : list string;   (** saved fields, last first *)
  rd_field : list ascii;     (** the field being read, last character first *)
  rd_field_len : Z           (** its length *)
}.

(** [csv.field_size_limit()] *)
Definition field_limit : Z := 131072.

Definition parse_add_char (r : csv_reader) (c : ascii) : res csv_reader :=
  if field_limit <=? rd_field_len r then Raise CsvError
  else Ok (mk_reader (rd_state r) (rd_fields r) (c :: rd_field r) (rd_field_len r + 1)).

Definition parse_save_field (r : csv_reader) : csv_reader :=
  mk_reader (rd_state r) (string_of_list_ascii (rev (rd_field r)) :: rd_fields r) [] 0.

Definition set_state (s : csv_state) (r : csv_reader) : csv_reader :=
  mk_reader s (rd_fields r) (rd_field r) (rd_field_len r).

Definition quote_char : ascii := ascii_of_nat 34.

Definition is_crlf (c : option ascii) : bool :=
  match c with Some c => (code c =? 10) || (code c =? 13) | None => false end.

Definition is_char (c : option ascii) (x : ascii) : bool :=
  match c with Some c => Ascii.eqb c x | None => false end.

Definition end_of_line (c : option ascii) (r : csv_reader) : csv_reader :=
  set_state (match c with None => START_RECORD | Some _ => EAT_CRNL end) (parse_save_field r).

Definition start_field (r : csv_reader) (c : option ascii) : res csv_reader :=
  if is_crlf c || negb (match c with Some _ => true | None => false end) then
    Ok (end_of_line c r)
  else if is_char c quote_char then Ok (set_state IN_QUOTED_FIELD r)
  else if is_char c "," then Ok (parse_save_field r)
  else match c with
       | Some ch => bind (parse_add_char r ch) (fun r' => Ok (set_state IN_FIELD r'))
       | None => Ok r
       end.

Definition parse_process_char (r : csv_reader) (c : option ascii) : res csv_reader :=
  match rd_state r with
  | START_RECORD =>
      match c with
      | None => Ok r
      | Some _ => if is_crlf c then Ok (set_state EAT_CRNL r)
                  else start_field (set_state START_FIELD r) c
      end
  | START_FIELD => start_field r c
  | IN_FIELD =>
      if is_crlf c then Ok (end_of_line c r)
      else match c with
           | None => Ok (end_of_line c r)
           | Some ch =>
               if Ascii.eqb ch "," then Ok (set_state START_FIELD (parse_save_field r))
               else parse_add_char r ch
           end
  | IN_QUOTED_FIELD =>
      match c with
      | None => Ok r
      | Some ch =>
          if Ascii.eqb ch quote_char then Ok (set_state QUOTE_IN_QUOTED_FIELD r)
          else parse_add_char r ch
      end
  | QUOTE_IN_QUOTED_FIELD =>
      match c with
      | Some ch =>
          if Ascii.eqb ch quote_char then
            bind (parse_add_char r ch) (fun r' => Ok (set_state IN_QUOTED_FIELD r'))
          else if Ascii.eqb ch "," then Ok (set_state START_FIELD (parse_save_field r))
          else if is_crlf c then Ok (end_of_line c r)
          else bind (parse_add_char r ch) (fun r' => Ok (set_state IN_FIELD r'))
      | None => Ok (end_of_line c r)
      end
  | EAT_CRNL =>
      if is_crlf c then Ok r
      else match c with
           | None => Ok (set_state START_RECORD r)
           | Some _ => Raise CsvError
           end
  end.

Fixpoint csv_feed (r : csv_reader) (l : list ascii) : res csv_reader :=
  match l with
  | [] => Ok r
  | c :: l' => bind (parse_process_char r (Some c)) (fun r' => csv_feed r' l')
  end.

(** [next(csv.reader(io.StringIO(line)), [])] for a [line] that holds no
    ["\n"]: the iterator yields that single line. When the line leaves a
    quoted field open, the input is then exhausted and the non-strict reader
    saves the pending field; when it yields no record, the default [[]]. *)
Definition csv_next_row (line : string) : res (list string) :=
  r <- csv_feed (mk_reader START_RECORD [] [] 0) (list_ascii_of_string line) ;;
  r' <- parse_process_char r None ;;
  match rd_state r' with
  | START_RECORD => Ok (rev (rd_fields r'))
  | _ =>
      if negb (rd_field_len r' =? 0)
         || match rd_state r' with IN_QUOTED_FIELD => true | _ => false end
      then Ok (rev (rd_fields (parse_save_field r')))
      else Ok []
  end.

(** ** The samplers *)

(** A sample: [(cpu, mem)], [None] standing for Python's [None]. *)
Definition sample : Type := option float * option float.

(** The outcome of [subprocess.run(["typeperf", ...])]: the binary is not
    found, or the decoded standard output of the process. *)
Inductive typeperf_run :=
| TypeperfNotFound
| TypeperfStdout (out : string).

Definition py_is_empty (s : string) : bool :=
  match s with EmptyString => true | _ => false end.

(** [[ln for ln in out.splitlines() if ln.strip()]] *)
Definition typeperf_lines (out : string) : list string :=
  filter (fun ln => negb (py_is_empty (py_strip ln))) (py_splitlines out).

(** The [try] of lines 26-50 of [_read_windows_typeperf(interval)] and its
    [return None, None]: [run] is what running the command gives
    ([read_windows_typeperf_at] below builds the command first). *)
Definition read_windows_typeperf (run : typeperf_run) : res sample :=
  py_try
    (match run with
     | TypeperfNotFound => Raise FileNotFoundError
     | TypeperfStdout out =>
         let lines := typeperf_lines out in
         if Nat.leb 3 (List.length lines) then
           let data_line := last lines EmptyString in
           row <- csv_next_row data_line ;;
           if Nat.leb 3 (List.length row) then
             py_try
               (cpu <- py_float (nth 1 row EmptyString) ;;
                mem <- py_float (nth 2 row EmptyString) ;;
                Ok (Some cpu, Some mem))
               (fun e => match e with ValueError => true | _ => false end)
               (Ok (None, None))
           else Ok (None, None)
         else Ok (None, None)
     end)
    (fun e => match e with FileNotFoundError => true | _ => false end)
    (Ok (None, None)).

(** [int(x)] for a [float] [x]: truncation toward zero. *)
Definition py_int_of_float (x : float) : res Z :=
  match Prim2SF x with
  | S754_nan => Raise ValueError
  | S754_infinity _ => Raise OverflowError
  | S754_zero _ => Ok 0
  | S754_finite s m e =>
      let a := if 0 <=? e then Zpos m * 2 ^ e else Zpos m / 2 ^ (- e) in
      Ok (if s then - a else a)
  end.

(** [bool(x)] for a [float] [x]: false for the two zeros only. *)
Definition py_float_truthy (x : float) : bool := negb (x =? 0)%float.

(** [str(n)] for an [int]. *)
Definition py_str_int (n : Z) : string :=
  if n <? 0 then ("-" ++ dec (- n))%string else dec n.

(** [counters] of lines 12-15. *)
Definition typeperf_counters : list string :=
  ["\Processor(_Total)\% Processor Time"; "\Memory\% Committed Bytes In Use"]%string.

(** [cmd] of lines 18-25. *)
Definition typeperf_cmd (interval : float) : res (list string) :=
  si <- (if py_float_truthy interval then
           k <- py_int_of_float interval ;; Ok (py_str_int (Z.max 1 k))
         else Ok "1"%string) ;;
  Ok (["typeperf"; "-sc"; "1"; "-si"; si]%string ++ typeperf_counters).

(** [_read_windows_typeperf(interval)] with its command: the command is
    built before the [try] of line 26, [run] is what running it gives. *)
Definition read_windows_typeperf_at (interval : float) (run : typeperf_run) : res sample :=
  _ <- typeperf_cmd interval ;;
  read_windows_typeperf run.

(** The CPU line of [/proc/stat], from the contents read by one call of
    [read_cpu_times]: [None] when no line starts with ["cpu "]. *)
Fixpoint cpu_times_of_lines (lines : list string) : res (option (Z * Z)) :=
  match lines with
  | [] => Ok None
  | line :: rest =>
      if py_startswith line "cpu " then
        let parts := py_split_ws line in
        nums <- py_map py_int (tl parts) ;;
        n3 <- py_index nums 3 ;;
        n4 <- (if Nat.ltb 4 (List.length nums) then py_index nums 4 else Ok 0) ;;
        let idle := n3 + n4 in
        let total := fold_right Z.add 0 nums in
        Ok (Some (idle, total))
      else cpu_times_of_lines rest
  end.

(** [read_cpu_times()] on the contents of [/proc/stat] at that moment. *)
Definition read_cpu_times (stat : string) : res (option (Z * Z)) :=
  cpu_times_of_lines (py_file_lines stat).

(** [a, b = v] for a value [v] that is a pair or [None]. *)
Definition unpack2 {A B} (v : option (A * B)) : res (A * B) :=
  match v with
  | Some p => Ok p
  | None => Raise TypeError
  end.

(** [cpu] from two snapshots, lines 71-76 (the [is None] test of line 71 is
    on [int]s, which are never [None]). *)
Definition cpu_of_snapshots (s1 s2 : Z * Z) : res (option float) :=
  let '(idle1, total1) := s1 in
  let '(idle2, total2) := s2 in
  let idle_delta := idle2 - idle1 in
  let total_delta := total2 - total1 in
  if 0 <? total_delta then
    q <- py_int_truediv idle_delta total_delta ;;
    Ok (Some (100 * (1 - q))%float)
  else Ok None.

(** The dict [meminfo] built by lines 81-85: an association list, the most
    recent assignment first. *)
Fixpoint meminfo_dict (lines : list string) (d : list (string * string))
  : res (list (string * string)) :=
  match lines with
  | [] => Ok d
  | line :: rest =>
      match split_once ":"%char line with
      | Some (k, v) => meminfo_dict rest ((py_strip k, py_strip v) :: d)
      | None => Raise ValueError
      end
  end.

Fixpoint dict_get (d : list (string * string)) (k : string) (default : string) : string :=
  match d with
  | [] => default
  | (k', v) :: d' => if String.eqb k k' then v else dict_get d' k default
  end.

(** [kb(name)] *)
Definition kb (d : list (string * string)) (name : string) : res float :=
  let val := py_split_ws (dict_get d name "0 kB") in
  v <- py_index val 0 ;;
  py_float v.

(** The body of the [try] of lines 80-92 on the contents of [/proc/meminfo]
    ([None]: the file cannot be opened). *)
Definition read_meminfo (meminfo : option string) : res (option float) :=
  contents <- (match meminfo with Some c => Ok c | None => Raise FileNotFoundError end) ;;
  d <- meminfo_dict (py_file_lines contents) [] ;;
  total <- kb d "MemTotal" ;;
  avail <- kb d "MemAvailable" ;;
  Ok (if (0 <? total)%float then Some (100 * (1 - avail / total))%float else None).

(** The body of [_read_linux_proc(interval)] once the [time.sleep] of
    line 69 has returned ([read_linux_proc_at] below has the sleep):
    [stat1] and [stat2] are the contents of [/proc/stat] before and after
    the sleep, [meminfo] those of [/proc/meminfo]. *)
Definition read_linux_proc (stat1 stat2 : string) (meminfo : option string) : res sample :=
  t1 <- read_cpu_times stat1 ;;
  s1 <- unpack2 t1 ;;
  t2 <- read_cpu_times stat2 ;;
  s2 <- unpack2 t2 ;;
  cpu <- cpu_of_snapshots s1 s2 ;;
  let mem := match read_meminfo meminfo with
             | Ok m => m
             | Raise _ => None        (** [except Exception: pass] *)
             end in
  Ok (cpu, mem).

(** [time.sleep(secs)] for a [float] [secs], as CPython converts it
    ([_PyTime_FromSecondsObject] with rounding away from zero): NaN raises
    [ValueError]; [secs * 1e9] is rounded to whole nanoseconds, and a
    result outside [[-2^63, 2^63)] raises [OverflowError]; a negative
    duration then raises [ValueError]; otherwise the sleep returns. *)
Definition py_sleep (secs : float) : res unit :=
  if PrimFloat.is_nan secs then Raise ValueError
  else
    match Prim2SF (secs * 1000000000)%float with
    | S754_zero _ => Ok tt
    | S754_infinity _ => Raise OverflowError
    | S754_nan => Raise ValueError
    | S754_finite s m e =>
        (* the absolute value of the duration in nanoseconds, rounded up *)
        let a := if 0 <=? e then Zpos m * 2 ^ e
                 else (Zpos m + 2 ^ (- e) - 1) / 2 ^ (- e) in
        if s then (if a <=? 2 ^ 63 then Raise ValueError else Raise OverflowError)
        else if a <? 2 ^ 63 then Ok tt else Raise OverflowError
    end.

(** [_read_linux_proc(interval)] with the [time.sleep(interval or 1)] of
    line 69 between the two reads of [/proc/stat]. *)
Definition read_linux_proc_at (interval : float) (stat1 stat2 : string)
    (meminfo : option string) : res sample :=
  t1 <- read_cpu_times stat1 ;;
  s1 <- unpack2 t1 ;;
  _ <- py_sleep (if py_float_truthy interval then interval else 1) ;;
  t2 <- read_cpu_times stat2 ;;
  s2 <- unpack2 t2 ;;
  cpu <- cpu_of_snapshots s1 s2 ;;
  let mem := match read_meminfo meminfo with
             | Ok m => m
             | Raise _ => None        (** [except Exception: pass] *)
             end in
  Ok (cpu, mem).

(** What [read_metrics] depends on, with its argument [interval]. *)
Record world := mk_world {
  psutil_result : sample;          (** [_read_with_psutil]: [(None, None)] without psutil *)
  system : string;                 (** [platform.system()] *)
  proc_stat_exists : bool;         (** [os.path.exists("/proc/stat")] *)
  typeperf_result : typeperf_run;
  proc_stat_before : string;
  proc_stat_after : string;
  proc_meminfo : option string;
  interval : float                 (** the argument of [read_metrics] *)
}.

(** [read_metrics(interval)] *)
Definition read_metrics (w : world) : res sample :=
  let '(cpu, mem) := psutil_result w in
  match cpu, mem with
  | Some _, Some _ => Ok (cpu, mem)
  | _, _ =>
      if String.eqb (system w) "Windows" then
        read_windows_typeperf_at (interval w) (typeperf_result w)
      else if proc_stat_exists w then
        read_linux_proc_at (interval w) (proc_stat_before w) (proc_stat_after w)
          (proc_meminfo w)
      else Ok (None, None)
  end.

(** [format_line(cpu, mem)] *)
Definition format_line (cpu mem : option float) : string :=
  let parts :=
    [match cpu with
     | Some c => "CPU: " ++ fmt_5_1f c ++ "%"
     | None => "CPU: N/A"
     end%string;
     match mem with
     | Some m => "Memory: " ++ fmt_5_1f m ++ "%"
     | None => "Memory: N/A"
     end%string] in
  String.concat " | " parts.

(** ** Graph mode (lines 160-223) *)

(** [min(a, b)] and [max(a, b)] on two floats: the first argument is kept
    unless the second compares smaller (greater). *)
Definition py_min (a b : float) : float := if (b <? a)%float then b else a.
Definition py_max (a b : float) : float := if (a <? b)%float then b else a.

(** The value appended to a history buffer for one metric (lines 168-169). *)
Definition hist_value (v : option float) : float :=
  match v with
  | None => 0%float
  | Some x => py_max 0 (py_min 100 x)
  end.

(** Canvas size from the terminal size [(columns, lines)] (lines 174-175). *)
Definition canvas_width (columns : Z) : Z := Z.max 30 (columns - 8).
Definition canvas_height (lines : Z) : Z := Z.max 10 (Z.min 24 (lines - 5)).

(** [row_for(value)] inside a frame of the given [height]. *)
Definition row_for (height : Z) (value : float) : res Z :=
  k <- py_int_to_float (height - 1) ;;
  r <- py_round ((value / 100) * k)%float ;;
  Ok ((height - 1) - r).

(** [l[i]] with Python's reading of negative indices. *)
Definition py_getitem {A} (l : list A) (i : Z) : res A :=
  let n := Z.of_nat (List.length l) in
  let j := if i <? 0 then i + n else i in
  if (0 <=? j) && (j <? n) then
    match nth_error l (Z.to_nat j) with
    | Some a => Ok a
    | None => Raise IndexError
    end
  else Raise IndexError.

Definition canvas : Type := list (list ascii).

(** [canvas[r][x] = ch]; every row is a list object of its own. *)
Definition set_cell (cv : canvas) (r x : Z) (ch : ascii) : res canvas :=
  row <- py_getitem cv r ;;
  row' <- py_list_set row x ch ;;
  py_list_set cv r row'.

Definition blank : ascii := " "%char.

(** [[[" "] * n for _ in range(height)]] *)
Definition empty_canvas (height : Z) (n : nat) : canvas :=
  repeat (repeat blank n) (Z.to_nat height).

(** One iteration of the loop of lines 189-196. *)
Definition draw_column (height x : Z) (c m : float) (cv : canvas) : res canvas :=
  rc <- row_for height c ;;
  rm <- row_for height m ;;
  if rc =? rm then set_cell cv rc x "@"%char
  else cv1 <- set_cell cv rc x "#"%char ;; set_cell cv1 rm x "*"%char.

(** [for x in range(n)] over [cpu_view] and [mem_view], from column [x]. *)
Fixpoint draw_columns (height x : Z) (cpu_view mem_view : list float) (cv : canvas) : res canvas :=
  match cpu_view, mem_view with
  | c :: cs, m :: ms =>
      cv' <- draw_column height x c m cv ;;
      draw_columns height (x + 1) cs ms cv'
  | [], _ => Ok cv
  | _ :: _, [] => Raise IndexError
  end.

(** [l[-n:]] *)
Definition py_tail_slice {A} (n : nat) (l : list A) : list A :=
  if Nat.eqb n 0 then l else skipn (List.length l - n) l.

Record gstate := mk_gstate {
  cpu_hist : list float;
  mem_hist : list float;
  count : Z
}.

(** The canvas of one frame, from the histories and the terminal size
    (lines 172-196); the printing of lines 199-217 reads it and raises
    nothing. *)
Definition graph_frame (st : gstate) (size : Z * Z) : res canvas :=
  let '(columns, lines) := size in
  let width := canvas_width columns in
  let height := canvas_height lines in
  let n := Nat.min (List.length (cpu_hist st)) (Z.to_nat width) in
  let cpu_view := py_tail_slice n (cpu_hist st) in
  let mem_view := py_tail_slice n (mem_hist st) in
  draw_columns height 0 cpu_view mem_view (empty_canvas height n).

(** Lines 166-170: the sample is taken and appended. *)
Definition append_sample (st : gstate) (s : sample) : gstate :=
  let '(cpu, mem) := s in
  mk_gstate (cpu_hist st ++ [hist_value cpu]) (mem_hist st ++ [hist_value mem]) (count st + 1).

Inductive loop_result :=
| Finished (st : gstate) (frames : list canvas)   (** [break], then ["Done."] *)
| Running (st : gstate) (frames : list canvas)    (** still looping when the inputs end *)
| Crashed (e : py_exc).

(** The [while True] loop of graph mode with [args.samples = samples]; the
    i-th iteration samples the i-th world and sees the i-th terminal size. *)
Fixpoint graph_loop (samples : Z) (inputs : list (world * (Z * Z))) (st : gstate)
    (frames : list canvas) : loop_result :=
  match inputs with
  | [] => Running st frames
  | (w, size) :: rest =>
      match read_metrics w with
      | Raise e => Crashed e
      | Ok s =>
          let st' := append_sample st s in
          match graph_frame st' size with
          | Raise e => Crashed e
          | Ok cv =>
              if (0 <? samples) && (samples <=? count st') then Finished st' (frames ++ [cv])
              else graph_loop samples rest st' (frames ++ [cv])
          end
      end
  end.

Definition graph_init : gstate := mk_gstate [] [] 0.

(** ** Concrete inputs *)

Definition nl : string := String (ascii_of_nat 10) EmptyString.

(** [/proc/stat] snapshots with [(idle, total) = (100, 1000)] and
    [(110, 1100)]. *)
Definition stat_a : string := "cpu  800 0 100 100 0 0 0 0 0 0" ++ nl ++ "cpu0 400 0 50 50" ++ nl.
Definition stat_b : string := "cpu  880 0 110 110 0 0 0 0 0 0" ++ nl ++ "cpu0 440 0 55 55" ++ nl.

(** [/proc/meminfo] with 60% of the memory in use. *)
Definition meminfo_60 : string :=
  "MemTotal:  100 kB" ++ nl ++ "MemFree:  10 kB" ++ nl ++ "MemAvailable:  40 kB" ++ nl.

(** [/proc/meminfo] without a [MemAvailable] line. *)
Definition meminfo_no_available : string :=
  "MemTotal:  16000 kB" ++ nl ++ "MemFree:  8000 kB" ++ nl.

(** [/proc/stat] without a ["cpu "] line. *)
Definition stat_no_cpu : string := "intr 12 34" ++ nl ++ "ctxt 56" ++ nl.

(** A Linux host where the library-backed sampler reads [(55.0, None)] and
    the pseudo-filesystem sampler reads [(None, 60.0)]: the two snapshots
    are equal, so the CPU delta is 0. *)
Definition world_partial : world :=
  mk_world (Some 55%float, None) "Linux" true TypeperfNotFound stat_a stat_a (Some meminfo_60)
    1%float.




(** ** Canvas cells and float rounding locations *)

(** Whether a rounding location records a discarded nonzero part. *)
Definition loc_inexact (l : location) : bool :=
  match l with loc_Exact => false | loc_Inexact _ => true end.

(** [canvas[r][x]], a blank outside the canvas. *)
Definition cell (cv : canvas) (r x : nat) : ascii := nth x (nth r cv []) blank.

(** A canvas of [h] rows of [n] cells. *)
Definition canvas_shape (cv : canvas) (h n : nat) : Prop :=
  List.length cv = h /\ Forall (fun row => List.length row = n) cv.

(** A history value in [[0, 100]]. *)
Definition hist_ok (v : float) : Prop := (0 <=? v)%float = true /\ (v <=? 100)%float = true.

(** The cell [r] of a column after its markers are drawn at rows [rc]
    (cpu) and [rm] (mem), [old] being the cell before. *)
Definition column_mark (rc rm : Z) (r : nat) (old : ascii) : ascii :=
  if Z.of_nat r =? rc then (if rc =? rm then "@"%char else "#"%char)
  else if Z.of_nat r =? rm then "*"%char else old.

(** The cell [r] of the column drawn for the values [c] and [m]. *)
Definition marked_cell (h : Z) (c m : float) (r : nat) (old : ascii) : ascii :=
  match row_for h c, row_for h m with
  | Ok rc, Ok rm => column_mark rc rm r old
  | _, _ => old
  end.

(** The invariant of the graph-mode state: histories of the same length,
    values in [[0, 100]], and [count] the number of samples taken. *)
Definition ginv (st : gstate) : Prop :=
  List.length (mem_hist st) = List.length (cpu_hist st)
  /\ Forall hist_ok (cpu_hist st) /\ Forall hist_ok (mem_hist st)
  /\ count st = Z.of_nat (List.length (cpu_hist st)).

(** A sampled Linux host, and a run of two iterations on an 80x24 terminal. *)
Definition world_linux : world :=
  mk_world (None, None) "Linux" true TypeperfNotFound stat_a stat_b (Some meminfo_60)
    1%float.

Definition two_runs : list (world * (Z * Z)) := [(world_linux, (80, 24)); (world_linux, (80, 24))].

(** ** The command line, the y axis and the legend *)

(** [interval] of line 151, from the value of [--interval]. *)
Definition main_interval (arg : float) : float :=
  if (0 <? arg)%float then arg else 1.

(** [ticks] of line 206: the rows that carry a label. *)
Definition tick_rows (height : Z) : res (list Z) :=
  hf <- py_int_to_float height ;;
  t1 <- py_int_of_float (hf * 0.25) ;;
  t2 <- py_int_of_float (hf * 0.5) ;;
  t3 <- py_int_of_float (hf * 0.75) ;;
  Ok [0; t1; t2; t3; height - 1].

(** [label] of lines 208-212 for the row [row]. *)
Definition row_label (height : Z) (ticks : list Z) (row : Z) : res string :=
  if existsb (Z.eqb row) ticks then
    q <- py_int_truediv row (height - 1) ;;
    v <- py_round (100 * (1 - q))%float ;;
    Ok (pad_left 3 (py_str_int v))
  else Ok "   "%string.


(** [latest_cpu] and [latest_mem] of lines 200-201, for the state after the
    append and the terminal width [columns]. *)
Definition latest_values (st : gstate) (columns : Z) : res (float * float) :=
  let n := Nat.min (List.length (cpu_hist st)) (Z.to_nat (canvas_width columns)) in
  c <- py_getitem (py_tail_slice n (cpu_hist st)) (-1) ;;
  m <- py_getitem (py_tail_slice n (mem_hist st)) (-1) ;;
  Ok (c, m).

(** The status part [format_line(latest_cpu, latest_mem)] of the legend of
    line 202. *)
Definition legend_status (st : gstate) (columns : Z) : res string :=
  v <- latest_values st columns ;;
  let '(c, m) := v in Ok (format_line (Some c) (Some m)).

(** * Properties *)

Set Warnings "-inexact-float".

(** ** The backend selector *)

(** Claim C1 (as stated, refuted): on a host where the library-backed
    sampler reads [(55.0, None)] and the pseudo-filesystem sampler reads
    [(None, 60.0)], [read_metrics] returns [(None, 60.0)], not [(None, None)]. *)
Lemma read_metrics_partial_passes_through :
  read_metrics world_partial = Ok (None, Some 60%float)
  /\ read_metrics world_partial <> Ok (None, None).
Proof.
  split.
  - vm_compute. reflexivity.
  - vm_compute. discriminate.
Qed.

(** Claim C1 (amended): only a partial result of the library-backed sampler
    is a miss. [read_metrics] returns that sampler's pair when both values
    are present; otherwise it returns the platform sampler's result as it is
    (typeperf on Windows, else the pseudo-filesystem sampler when
    [/proc/stat] exists), partial pairs included, and [(None, None)] when no
    platform sampler applies. *)
Theorem read_metrics_selection (w : world) :
  (forall c m, psutil_result w = (Some c, Some m) -> read_metrics w = Ok (Some c, Some m))
  /\ (forall c m, psutil_result w = (c, m) -> (c = None \/ m = None) ->
      read_metrics w =
        if String.eqb (system w) "Windows" then
          read_windows_typeperf_at (interval w) (typeperf_result w)
        else if proc_stat_exists w then
          read_linux_proc_at (interval w) (proc_stat_before w) (proc_stat_after w)
            (proc_meminfo w)
        else Ok (None, None)).
Proof.
  unfold read_metrics. split.
  - intros c m H. rewrite H. reflexivity.
  - intros c m H Hn. rewrite H.
    destruct Hn as [-> | ->]; [reflexivity | destruct c; reflexivity].
Qed.

(** ** Output line *)

(** Claim C5: [format_line] renders each value with [{:5.1f}] or as [N/A]
    and joins the two fields with [" | "]; on the two inputs of the spec it
    gives the strings the spec lists. *)
Theorem format_line_spec :
  (forall cpu mem,
    format_line cpu mem =
      ((match cpu with Some c => "CPU: " ++ fmt_5_1f c ++ "%" | None => "CPU: N/A" end)
       ++ " | " ++
       (match mem with Some m => "Memory: " ++ fmt_5_1f m ++ "%" | None => "Memory: N/A" end))%string)
  /\ format_line (Some 12.34%float) (Some 56.78%float) = "CPU:  12.3% | Memory:  56.8%"%string
  /\ format_line None (Some 99.95%float) = "CPU: N/A | Memory: 100.0%"%string.
Proof.
  split; [| split].
  - intros [c|] [m|]; reflexivity.
  - vm_compute. reflexivity.
  - vm_compute. reflexivity.
Qed.

(** ** Canvas geometry *)

Lemma canvas_height_range (lines : Z) : 10 <= canvas_height lines <= 24.
Proof. unfold canvas_height. lia. Qed.

(** The heights a frame can have. *)
Lemma canvas_height_cases (lines : Z) :
  In (canvas_height lines) (map Z.of_nat (seq 10 15)).
Proof.
  pose proof (canvas_height_range lines) as [Hlo Hhi].
  apply in_map_iff. exists (Z.to_nat (canvas_height lines)). split.
  - lia.
  - apply in_seq. lia.
Qed.

Lemma forall_heights (P : Z -> Prop) (b : Z -> bool) :
  (forall h, b h = true -> P h) ->
  forallb b (map Z.of_nat (seq 10 15)) = true ->
  forall lines, P (canvas_height lines).
Proof.
  intros Hb Hall lines. apply Hb.
  rewrite forallb_forall in Hall. apply Hall, canvas_height_cases.
Qed.

Definition res_eqb (r : res Z) (z : Z) : bool :=
  match r with Ok v => v =? z | Raise _ => false end.

Lemma res_eqb_ok (r : res Z) (z : Z) : res_eqb r z = true -> r = Ok z.
Proof. destruct r; simpl; [intro H; apply Z.eqb_eq in H; subst; reflexivity | discriminate]. Qed.

(** Claim C7: for every frame, [row_for(0)] is the bottom row [height-1]
    and [row_for(100)] the top row [0]; the height of a frame is
    [max(10, min(24, lines-5))]. *)
Theorem row_for_extremes (lines : Z) :
  let height := canvas_height lines in
  row_for height 0 = Ok (height - 1) /\ row_for height 100 = Ok 0.
Proof.
  apply (forall_heights (fun h => row_for h 0 = Ok (h - 1) /\ row_for h 100 = Ok 0)
           (fun h => res_eqb (row_for h 0) (h - 1) && res_eqb (row_for h 100) 0)).
  - intros h Hb. apply andb_prop in Hb as [H0 H1].
    split; apply res_eqb_ok; assumption.
  - vm_compute. reflexivity.
Qed.

(** ** The pseudo-filesystem sampler *)

Lemma read_linux_proc_snapshots (stat1 stat2 : string) (mi : option string) (p1 p2 : Z * Z) :
  read_cpu_times stat1 = Ok (Some p1) ->
  read_cpu_times stat2 = Ok (Some p2) ->
  read_linux_proc stat1 stat2 mi =
    bind (cpu_of_snapshots p1 p2)
      (fun cpu => Ok (cpu, match read_meminfo mi with Ok m => m | Raise _ => None end)).
Proof.
  intros H1 H2. unfold read_linux_proc. rewrite H1. cbn [bind unpack2].
  rewrite H2. reflexivity.
Qed.

(** Claim C4: from two snapshots [(idle1, total1)] and [(idle2, total2)],
    the sampler's cpu is [100 * (1 - (idle2-idle1)/(total2-total1))]
    (Python's float operations, the quotient being Python's true division
    of two ints) when [total2 > total1] and [None] otherwise; the memory
    value does not depend on the snapshots. On the snapshots [(100, 1000)]
    and [(110, 1100)] the cpu is [90.0]. *)
Theorem linux_cpu_percent (stat1 stat2 : string) (mi : option string) (i1 t1 i2 t2 : Z)
  (H1 : read_cpu_times stat1 = Ok (Some (i1, t1)))
  (H2 : read_cpu_times stat2 = Ok (Some (i2, t2))) :
  let mem := match read_meminfo mi with Ok m => m | Raise _ => None end in
  (t2 - t1 <= 0 -> read_linux_proc stat1 stat2 mi = Ok (None, mem))
  /\ (0 < t2 - t1 -> forall q, py_int_truediv (i2 - i1) (t2 - t1) = Ok q ->
        read_linux_proc stat1 stat2 mi = Ok (Some (100 * (1 - q))%float, mem))
  /\ (0 < t2 - t1 -> forall e, py_int_truediv (i2 - i1) (t2 - t1) = Raise e ->
        read_linux_proc stat1 stat2 mi = Raise e)
  /\ read_linux_proc stat_a stat_b mi = Ok (Some 90%float, mem).
Proof.
  intro mem.
  pose proof (read_linux_proc_snapshots stat1 stat2 mi _ _ H1 H2) as Hgen.
  split; [| split; [| split]].
  - intro Hle. rewrite Hgen. unfold cpu_of_snapshots.
    replace (0 <? t2 - t1) with false by (symmetry; apply Z.ltb_ge; lia).
    reflexivity.
  - intros Hlt q Hq. rewrite Hgen. unfold cpu_of_snapshots.
    replace (0 <? t2 - t1) with true by (symmetry; apply Z.ltb_lt; lia).
    rewrite Hq. reflexivity.
  - intros Hlt e He. rewrite Hgen. unfold cpu_of_snapshots.
    replace (0 <? t2 - t1) with true by (symmetry; apply Z.ltb_lt; lia).
    rewrite He. reflexivity.
  - rewrite (read_linux_proc_snapshots stat_a stat_b mi (100, 1000) (110, 1100))
      by (vm_compute; reflexivity).
    assert (Hc : cpu_of_snapshots (100, 1000) (110, 1100) = Ok (Some 90%float))
      by (vm_compute; reflexivity).
    rewrite Hc. reflexivity.
Qed.

Lemma linux_cpu_percent_witness :
  read_cpu_times stat_a = Ok (Some (100, 1000))
  /\ read_cpu_times stat_b = Ok (Some (110, 1100))
  /\ py_int_truediv (110 - 100) (1100 - 1000) = Ok 0.1%float
  /\ read_linux_proc stat_a stat_b (Some meminfo_60) = Ok (Some 90%float, Some 60%float).
Proof.
  assert (Ha : read_cpu_times stat_a = Ok (Some (100, 1000))) by (vm_compute; reflexivity).
  assert (Hb : read_cpu_times stat_b = Ok (Some (110, 1100))) by (vm_compute; reflexivity).
  assert (Hq : py_int_truediv (110 - 100) (1100 - 1000) = Ok 0.1%float) by (vm_compute; reflexivity).
  split; [exact Ha | split; [exact Hb | split; [exact Hq |]]].
  destruct (linux_cpu_percent stat_a stat_b (Some meminfo_60) 100 1000 110 1100 Ha Hb)
    as [_ [Hf _]].
  rewrite (Hf ltac:(lia) 0.1%float Hq). vm_compute. reflexivity.
Defined.

(** Claim C2 (as stated, refuted): a missing [MemAvailable] line does not
    make the memory value absent (it is read as 0 kB, giving 100.0), and a
    [/proc/stat] without a ["cpu "] line makes the sampler raise. *)
Lemma linux_sampler_parse_failures :
  read_linux_proc stat_a stat_b (Some meminfo_no_available) = Ok (Some 90%float, Some 100%float)
  /\ read_linux_proc stat_no_cpu stat_b (Some meminfo_60) = Raise TypeError.
Proof. split; vm_compute; reflexivity. Qed.

Lemma dict_get_absent (d : list (string * string)) (k def : string) :
  ~ In k (map fst d) -> dict_get d k def = def.
Proof.
  induction d as [| [k' v] d IH]; simpl; intro Hn; [reflexivity |].
  destruct (String.eqb_spec k k') as [-> | _]; [exfalso; apply Hn; left; reflexivity |].
  apply IH. intro Hi. apply Hn. right. exact Hi.
Qed.

Lemma py_float_zero_kb : py_float "0" = Ok 0%float.
Proof. vm_compute. reflexivity. Qed.

(** [0 / t] is [+0.0] for every [t > 0]. *)
Lemma zero_div_pos (t : float) : (0 <? t)%float = true -> (0 / t)%float = 0%float.
Proof.
  intro Ht. apply Prim2SF_inj. rewrite div_spec.
  rewrite ltb_spec in Ht.
  change (Prim2SF 0) with (S754_zero false) in *.
  unfold SF64div, SFdiv.
  destruct (Prim2SF t) as [s | s | | s m e]; simpl in Ht; try discriminate;
    destruct s; try discriminate; reflexivity.
Qed.

(** Claim C2 (amended): the memory-info source only decides the memory
    value. Any exception while reading it (file missing, a line without
    [':'], an empty or non-numeric value) makes the memory value [None]
    without raising and leaves cpu and the exceptions of the sampler as
    they are; a missing [MemTotal] line gives [None]; a missing
    [MemAvailable] line is read as 0 kB and gives [100.0]. *)
Theorem linux_sampler_memory_failures (s1 s2 : string) (mi mi' : option string) :
  (forall c m, read_linux_proc s1 s2 mi = Ok (c, m) ->
     m = match read_meminfo mi with Ok v => v | Raise _ => None end
     /\ exists m', read_linux_proc s1 s2 mi' = Ok (c, m'))
  /\ (forall e, read_linux_proc s1 s2 mi = Raise e -> read_linux_proc s1 s2 mi' = Raise e)
  /\ (forall content d, meminfo_dict (py_file_lines content) [] = Ok d ->
        ~ In "MemTotal"%string (map fst d) ->
        match read_meminfo (Some content) with Ok v => v | Raise _ => None end = None)
  /\ (forall content d t, meminfo_dict (py_file_lines content) [] = Ok d ->
        ~ In "MemAvailable"%string (map fst d) ->
        kb d "MemTotal" = Ok t -> (0 <? t)%float = true ->
        read_meminfo (Some content) = Ok (Some 100%float)).
Proof.
  split; [| split; [| split]].
  - intros c m H. unfold read_linux_proc in *.
    destruct (read_cpu_times s1) as [[p1|]|e1]; cbn [bind unpack2] in *; try discriminate.
    destruct (read_cpu_times s2) as [[p2|]|e2]; cbn [bind unpack2] in *; try discriminate.
    destruct (cpu_of_snapshots p1 p2) as [c'|e3]; cbn [bind] in *; try discriminate.
    injection H as <- <-. split; [reflexivity | eexists; reflexivity].
  - intros e H. unfold read_linux_proc in *.
    destruct (read_cpu_times s1) as [[p1|]|e1]; cbn [bind unpack2] in *; try exact H.
    destruct (read_cpu_times s2) as [[p2|]|e2]; cbn [bind unpack2] in *; try exact H.
    destruct (cpu_of_snapshots p1 p2) as [c'|e3]; cbn [bind] in *; [discriminate | exact H].
  - intros content d Hd Hn. unfold read_meminfo. cbn [bind]. rewrite Hd. cbn [bind].
    unfold kb at 1. rewrite (dict_get_absent d _ _ Hn).
    change (py_split_ws "0 kB") with ["0"%string; "kB"%string]. cbn [py_index nth_error bind].
    rewrite py_float_zero_kb. cbn [bind].
    destruct (kb d "MemAvailable"); reflexivity.
  - intros content d t Hd Hn Ht Hpos. unfold read_meminfo. cbn [bind]. rewrite Hd. cbn [bind].
    rewrite Ht. cbn [bind].
    unfold kb. rewrite (dict_get_absent d _ _ Hn).
    change (py_split_ws "0 kB") with ["0"%string; "kB"%string]. cbn [py_index nth_error bind].
    rewrite py_float_zero_kb. cbn [bind].
    rewrite Hpos, (zero_div_pos t Hpos). reflexivity.
Qed.

Lemma linux_sampler_memory_failures_witness :
  (exists m', read_linux_proc stat_a stat_b None = Ok (Some 90%float, m'))
  /\ read_linux_proc stat_no_cpu stat_b None = Raise TypeError
  /\ read_meminfo (Some meminfo_no_available) = Ok (Some 100%float).
Proof.
  destruct (linux_sampler_memory_failures stat_a stat_b (Some meminfo_60) None) as [H1 _].
  destruct (linux_sampler_memory_failures stat_no_cpu stat_b (Some meminfo_60) None) as [_ [H2 _]].
  destruct (linux_sampler_memory_failures stat_a stat_b (Some meminfo_no_available) None)
    as [_ [_ [_ H4]]].
  split; [| split].
  - exact (proj2 (H1 (Some 90%float) (Some 60%float) ltac:(vm_compute; reflexivity))).
  - exact (H2 TypeError ltac:(vm_compute; reflexivity)).
  - refine (H4 meminfo_no_available
              (match meminfo_dict (py_file_lines meminfo_no_available) [] with
               | Ok d => d | Raise _ => [] end) 16000%float _ _ _ _);
      vm_compute; try reflexivity.
    intros [H | [H | H]]; [discriminate | discriminate | exact H].
Defined.

Lemma read_metrics_selection_witness :
  read_metrics world_partial = read_linux_proc_at 1 stat_a stat_a (Some meminfo_60)
  /\ read_metrics (mk_world (Some 12.34%float, Some 56.78%float) "Linux" true
                     TypeperfNotFound stat_a stat_a None 1%float)
     = Ok (Some 12.34%float, Some 56.78%float).
Proof.
  split.
  - destruct (read_metrics_selection world_partial) as [_ H].
    rewrite (H (Some 55%float) None eq_refl (or_intror eq_refl)). reflexivity.
  - destruct (read_metrics_selection
                (mk_world (Some 12.34%float, Some 56.78%float) "Linux" true
                   TypeperfNotFound stat_a stat_a None 1%float)) as [H _].
    exact (H 12.34%float 56.78%float eq_refl).
Defined.

(** ** Windows sampler *)








(** ** Graph mode: the history buffers *)

Lemma ltb_leb (a b : float) : (a <? b)%float = true -> (a <=? b)%float = true.
Proof.
  rewrite ltb_spec, leb_spec. unfold SFltb, SFleb.
  destruct (SFcompare _ _) as [[] |]; congruence.
Qed.

Lemma hist_value_range (v : option float) :
  (0 <=? hist_value v)%float = true /\ (hist_value v <=? 100)%float = true.
Proof.
  destruct v as [x |]; [| split; reflexivity].
  unfold hist_value, py_max, py_min.
  destruct (x <? 100)%float eqn:E1.
  - destruct (0 <? x)%float eqn:E2; [| split; reflexivity].
    split; apply ltb_leb; assumption.
  - split; reflexivity.
Qed.

(** Claim C6: an absent metric is appended as [0.0] and a present one as
    [max(0.0, min(100.0, x))], which lies in [[0, 100]] for every float [x]
    (NaN included); so if every value of both histories lies in [[0, 100]]
    before an append, the same holds after it. *)
Theorem history_values_in_range (st : gstate) (s : sample) :
  hist_value None = 0%float
  /\ (forall x, hist_value (Some x) = py_max 0 (py_min 100 x))
  /\ (forall v, (0 <=? hist_value v)%float = true /\ (hist_value v <=? 100)%float = true)
  /\ (Forall (fun v => (0 <=? v)%float = true /\ (v <=? 100)%float = true) (cpu_hist st) ->
      Forall (fun v => (0 <=? v)%float = true /\ (v <=? 100)%float = true) (mem_hist st) ->
      Forall (fun v => (0 <=? v)%float = true /\ (v <=? 100)%float = true)
        (cpu_hist (append_sample st s))
      /\ Forall (fun v => (0 <=? v)%float = true /\ (v <=? 100)%float = true)
        (mem_hist (append_sample st s))).
Proof.
  split; [reflexivity | split; [reflexivity | split; [exact hist_value_range |]]].
  intros Hc Hm. destruct s as [c m]. simpl.
  split; apply Forall_app; split; try assumption; constructor; [apply hist_value_range | constructor | apply hist_value_range | constructor].
Qed.

Lemma history_values_in_range_witness :
  Forall (fun v => (0 <=? v)%float = true /\ (v <=? 100)%float = true)
    (cpu_hist (append_sample (mk_gstate [50%float] [0%float] 1) (Some 250%float, None)))
  /\ cpu_hist (append_sample (mk_gstate [50%float] [0%float] 1) (Some 250%float, None))
     = [50%float; 100%float].
Proof.
  split; [| reflexivity].
  destruct (history_values_in_range (mk_gstate [50%float] [0%float] 1) (Some 250%float, None))
    as [_ [_ [_ H]]].
  apply H; repeat constructor.
Defined.

(** ** Float rounding bounds and the canvas writes *)

Lemma digits2_pos_size (p : positive) : digits2_pos p = Pos.size p.
Proof. induction p; simpl; congruence. Qed.

Lemma digits2_log2 (p : positive) : Zpos (digits2_pos p) = Z.log2 (Zpos p) + 1.
Proof. rewrite digits2_pos_size. destruct p; simpl; lia. Qed.

Lemma digits2_bounds (p : positive) :
  2 ^ (Zpos (digits2_pos p) - 1) <= Zpos p < 2 ^ Zpos (digits2_pos p).
Proof.
  rewrite digits2_log2. replace (Z.log2 (Zpos p) + 1 - 1) with (Z.log2 (Zpos p)) by lia.
  pose proof (Z.log2_spec (Zpos p) ltac:(lia)) as [H1 H2].
  rewrite <- Z.add_1_r in H2. lia.
Qed.

Lemma Zdigits2_pos (p : positive) : Zdigits2 (Zpos p) = Zpos (digits2_pos p).
Proof. reflexivity. Qed.

Lemma fexp_mono (a b : Z) : a <= b -> fexp prec emax a <= fexp prec emax b.
Proof. unfold fexp. lia. Qed.

Lemma fexp_ge_emin (a : Z) : SpecFloat.emin prec emax <= fexp prec emax a.
Proof. unfold fexp. lia. Qed.

(** [m <= m' * 2^k] bounds the number of digits. *)
Lemma digits_le (p p' : positive) (k : Z) :
  0 <= k -> Zpos p <= Zpos p' * 2 ^ k ->
  Zpos (digits2_pos p) <= Zpos (digits2_pos p') + k.
Proof.
  intros Hk Hle.
  pose proof (digits2_bounds p) as [Hp _]. pose proof (digits2_bounds p') as [_ Hp'].
  assert (H : 2 ^ (Zpos (digits2_pos p) - 1) < 2 ^ (Zpos (digits2_pos p') + k)).
  { rewrite Z.pow_add_r by lia.
    apply Z.le_lt_trans with (Zpos p' * 2 ^ k); [lia |].
    apply Z.mul_lt_mono_pos_r; [apply Z.pow_pos_nonneg; lia | exact Hp']. }
  apply Z.pow_lt_mono_r_iff in H; lia.
Qed.

Lemma mod_mul_split (a b c : Z) :
  0 < b -> 0 < c -> a mod (b * c) = a mod b + b * ((a / b) mod c).
Proof.
  intros Hb Hc. rewrite !Z.mod_eq by lia. rewrite Z.div_div by lia. ring.
Qed.

Lemma mod_mul_zero (a b c : Z) :
  0 < b -> 0 < c ->
  (a mod (b * c) =? 0) = (a mod b =? 0) && ((a / b) mod c =? 0).
Proof.
  intros Hb Hc. rewrite mod_mul_split by lia.
  pose proof (Z.mod_pos_bound a b Hb). pose proof (Z.mod_pos_bound (a / b) c Hc).
  destruct (Z.eqb_spec (a mod b) 0), (Z.eqb_spec ((a / b) mod c) 0),
    (Z.eqb_spec (a mod b + b * ((a / b) mod c)) 0); simpl; nia.
Qed.

Lemma shr_1_spec (x : shr_record) :
  0 <= shr_m x ->
  shr_m (shr_1 x) = shr_m x / 2 /\ 0 <= shr_m (shr_1 x)
  /\ (shr_r (shr_1 x) || shr_s (shr_1 x))
     = (shr_r x || shr_s x || negb (shr_m x mod 2 =? 0)).
Proof.
  destruct x as [m r s]; simpl. intro Hm.
  destruct m as [| p | p]; [| | lia].
  - simpl. rewrite orb_false_r. auto.
  - destruct p as [p | p |]; simpl.
    + assert (E1 : Zpos p~1 / 2 = Zpos p) by (Z.div_mod_to_equations; lia).
      assert (E2 : Zpos p~1 mod 2 = 1) by (Z.div_mod_to_equations; lia).
      rewrite E1, E2. repeat split; [lia | destruct r, s; reflexivity].
    + assert (E1 : Zpos p~0 / 2 = Zpos p) by (Z.div_mod_to_equations; lia).
      assert (E2 : Zpos p~0 mod 2 = 0) by (Z.div_mod_to_equations; lia).
      rewrite E1, E2. repeat split; [lia | destruct r, s; reflexivity].
    + repeat split; destruct r, s; reflexivity.
Qed.

Lemma iter_shr_spec (p : positive) : forall x, 0 <= shr_m x ->
  shr_m (iter_pos shr_1 p x) = shr_m x / 2 ^ Zpos p
  /\ 0 <= shr_m (iter_pos shr_1 p x)
  /\ (shr_r (iter_pos shr_1 p x) || shr_s (iter_pos shr_1 p x))
     = (shr_r x || shr_s x || negb (shr_m x mod 2 ^ Zpos p =? 0)).
Proof.
  induction p as [p IH | p IH |]; intros x Hx; cbn [iter_pos].
  - destruct (shr_1_spec x Hx) as [M1 [P1 I1]].
    destruct (IH (shr_1 x) P1) as [M2 [P2 I2]].
    destruct (IH _ P2) as [M3 [P3 I3]].
    assert (Hp : 0 < 2 ^ Zpos p) by (apply Z.pow_pos_nonneg; lia).
    assert (E : 2 ^ Zpos p~1 = 2 * (2 ^ Zpos p * 2 ^ Zpos p)).
    { replace (Zpos p~1) with (1 + Zpos p + Zpos p) by lia.
      rewrite !Z.pow_add_r by lia. ring. }
    rewrite E. split; [| split; [exact P3 |]].
    + rewrite M3, M2, M1, !Z.div_div by lia. reflexivity.
    + rewrite I3, I2, I1, M2, M1.
      rewrite (mod_mul_zero _ 2 _) by lia. rewrite (mod_mul_zero _ (2 ^ Zpos p)) by lia.
      rewrite Z.div_div by lia.
      destruct (shr_r x), (shr_s x), (shr_m x mod 2 =? 0), (shr_m x / 2 mod 2 ^ Zpos p =? 0),
        (shr_m x / (2 * 2 ^ Zpos p) mod 2 ^ Zpos p =? 0); reflexivity.
  - destruct (IH x Hx) as [M2 [P2 I2]].
    destruct (IH _ P2) as [M3 [P3 I3]].
    assert (Hp : 0 < 2 ^ Zpos p) by (apply Z.pow_pos_nonneg; lia).
    assert (E : 2 ^ Zpos p~0 = 2 ^ Zpos p * 2 ^ Zpos p).
    { replace (Zpos p~0) with (Zpos p + Zpos p) by lia.
      rewrite !Z.pow_add_r by lia. ring. }
    rewrite E. split; [| split; [exact P3 |]].
    + rewrite M3, M2, Z.div_div by lia. reflexivity.
    + rewrite I3, I2, M2.
      rewrite (mod_mul_zero _ (2 ^ Zpos p)) by lia.
      destruct (shr_r x), (shr_s x), (shr_m x mod 2 ^ Zpos p =? 0),
        (shr_m x / 2 ^ Zpos p mod 2 ^ Zpos p =? 0); reflexivity.
  - exact (shr_1_spec x Hx).
Qed.

Lemma shr_fexp_spec (m e : Z) (l : location) :
  0 <= m ->
  let n := Z.max 0 (fexp prec emax (Zdigits2 m + e) - e) in
  shr_m (fst (shr_fexp prec emax m e l)) = m / 2 ^ n
  /\ snd (shr_fexp prec emax m e l) = e + n
  /\ 0 <= shr_m (fst (shr_fexp prec emax m e l))
  /\ (shr_r (fst (shr_fexp prec emax m e l)) || shr_s (fst (shr_fexp prec emax m e l)))
     = (loc_inexact l || negb (m mod 2 ^ n =? 0)).
Proof.
  intros Hm n. unfold shr_fexp, shr.
  assert (Hl : shr_m (shr_record_of_loc m l) = m
               /\ (shr_r (shr_record_of_loc m l) || shr_s (shr_record_of_loc m l)) = loc_inexact l)
    by (destruct l as [| [] ]; split; reflexivity).
  destruct Hl as [Hl1 Hl2].
  destruct (fexp prec emax (Zdigits2 m + e) - e) as [| d | d] eqn:Ed.
  - assert (n = 0) by lia. subst n. cbn [fst snd]. rewrite Hl1, Hl2, Z.pow_0_r, Z.div_1_r, Z.mod_1_r.
    rewrite orb_false_r. repeat split; lia.
  - assert (n = Zpos d) by lia. subst n. cbn [fst snd].
    destruct (iter_shr_spec d (shr_record_of_loc m l) ltac:(lia)) as [M [P I]].
    rewrite Hl1 in M, I. rewrite Hl2 in I.
    split; [exact M | split; [reflexivity | split; [exact P | exact I]]].
  - assert (n = 0) by lia. subst n. cbn [fst snd]. rewrite Hl1, Hl2, Z.pow_0_r, Z.div_1_r, Z.mod_1_r.
    rewrite orb_false_r. repeat split; lia.
Qed.

Lemma round_nearest_even_bounds (x : shr_record) :
  shr_m x <= round_nearest_even (shr_m x) (loc_of_shr_record x)
     <= shr_m x + (if shr_r x || shr_s x then 1 else 0).
Proof.
  destruct x as [m [] []]; cbn; try lia.
  destruct (Z.even m); lia.
Qed.

Ltac unfold_fexp := unfold fexp, SpecFloat.emin, FloatOps.prec, FloatOps.emax in *.

Lemma fexp_le_of_bound (m e : Z) (mB : positive) (eB : Z) :
  0 <= m -> e <= eB -> fexp prec emax (Zpos (digits2_pos mB) + eB) = eB ->
  m <= Zpos mB * 2 ^ (eB - e) -> fexp prec emax (Zdigits2 m + e) <= eB.
Proof.
  intros Hm He HB Hle. destruct m as [| p | p]; [| | lia].
  - simpl Zdigits2. unfold_fexp. lia.
  - rewrite Zdigits2_pos. rewrite <- HB. apply fexp_mono.
    pose proof (digits_le p mB (eB - e) ltac:(lia) Hle). lia.
Qed.

(** Rounding a value that lies below a representable bound [B] gives a
    value below [B]: the value is [mx * 2^ex] (made larger by the location
    [lx] when inexact) and [B] is [mB * 2^eB]. *)
Lemma round_aux_le (mx ex : Z) (lx : location) (mB : positive) (eB : Z) :
  0 <= mx -> ex <= eB ->
  fexp prec emax (Zpos (digits2_pos mB) + eB) = eB -> eB <= emax - prec ->
  mx <= Zpos mB * 2 ^ (eB - ex) ->
  (loc_inexact lx = true -> mx < Zpos mB * 2 ^ (eB - ex)) ->
  match binary_round_aux prec emax false mx ex lx with
  | S754_zero _ => True
  | S754_finite false m e => e <= eB /\ Zpos m <= Zpos mB * 2 ^ (eB - e)
  | _ => False
  end.
Proof.
  intros Hm He HB Hmax Hle Hlt. unfold binary_round_aux.
  destruct (shr_fexp_spec mx ex lx Hm) as [M1 [E1 [P1 I1]]].
  destruct (shr_fexp prec emax mx ex lx) as [r1 e1]. cbn [fst snd] in *.
  set (n1 := Z.max 0 (fexp prec emax (Zdigits2 mx + ex) - ex)) in *.
  pose proof (fexp_le_of_bound mx ex mB eB Hm He HB Hle) as Hf1.
  assert (Hn1 : 0 <= n1) by lia.
  assert (He1 : e1 <= eB) by lia.
  assert (Hp1 : 0 < 2 ^ n1) by (apply Z.pow_pos_nonneg; lia).
  assert (Hsplit : 2 ^ (eB - ex) = 2 ^ (eB - e1) * 2 ^ n1)
    by (rewrite <- Z.pow_add_r by lia; f_equal; lia).
  set (m2 := round_nearest_even (shr_m r1) (loc_of_shr_record r1)).
  pose proof (round_nearest_even_bounds r1) as Hr. fold m2 in Hr.
  assert (Hm2 : m2 <= Zpos mB * 2 ^ (eB - e1)).
  { pose proof (Z.mul_div_le mx (2 ^ n1) Hp1) as Hfl.
    pose proof (Z.mod_pos_bound mx (2 ^ n1) Hp1) as Hmod.
    pose proof (Z.div_mod mx (2 ^ n1) ltac:(lia)) as Hdm.
    assert (Hpos : 0 < 2 ^ (eB - e1)) by (apply Z.pow_pos_nonneg; lia).
    destruct (shr_r r1 || shr_s r1) eqn:Ei.
    - assert (Hstrict : shr_m r1 * 2 ^ n1 < Zpos mB * 2 ^ (eB - e1) * 2 ^ n1).
      { rewrite M1, <- Z.mul_assoc, <- Hsplit.
        destruct (loc_inexact lx) eqn:El.
        - specialize (Hlt eq_refl). nia.
        - simpl in I1. destruct (Z.eqb_spec (mx mod 2 ^ n1) 0); [discriminate |]. nia. }
      apply Z.mul_lt_mono_pos_r in Hstrict; [lia | exact Hp1].
    - assert (Hweak : shr_m r1 * 2 ^ n1 <= Zpos mB * 2 ^ (eB - e1) * 2 ^ n1).
      { rewrite M1, <- Z.mul_assoc, <- Hsplit. nia. }
      apply Z.mul_le_mono_pos_r in Hweak; [lia | exact Hp1]. }
  assert (Hm2pos : 0 <= m2) by lia.
  destruct (shr_fexp_spec m2 e1 loc_Exact Hm2pos) as [M2 [E2 [P2 _]]].
  destruct (shr_fexp prec emax m2 e1 loc_Exact) as [r2 e2]. cbn [fst snd] in *.
  set (n2 := Z.max 0 (fexp prec emax (Zdigits2 m2 + e1) - e1)) in *.
  pose proof (fexp_le_of_bound m2 e1 mB eB Hm2pos He1 HB Hm2) as Hf2.
  assert (Hp2 : 0 < 2 ^ n2) by (apply Z.pow_pos_nonneg; lia).
  assert (He2 : e2 <= eB) by lia.
  assert (Hsplit2 : 2 ^ (eB - e1) = 2 ^ (eB - e2) * 2 ^ n2)
    by (rewrite <- Z.pow_add_r by lia; f_equal; lia).
  assert (Hm3 : shr_m r2 <= Zpos mB * 2 ^ (eB - e2)).
  { pose proof (Z.mul_div_le m2 (2 ^ n2) Hp2) as Hfl.
    assert (H : shr_m r2 * 2 ^ n2 <= Zpos mB * 2 ^ (eB - e2) * 2 ^ n2)
      by (rewrite M2, <- Z.mul_assoc, <- Hsplit2; nia).
    apply Z.mul_le_mono_pos_r in H; [exact H | exact Hp2]. }
  destruct (shr_m r2) as [| m3 | m3]; [exact I | | lia].
  replace (e2 <=? emax - prec) with true by (symmetry; apply Z.leb_le; lia).
  split; assumption.
Qed.

Lemma leb_of_bound (m mB : positive) (e eB : Z) :
  e <= eB -> Zpos m <= Zpos mB * 2 ^ (eB - e) ->
  SFleb (S754_finite false m e) (S754_finite false mB eB) = true.
Proof.
  intros He Hle. unfold SFleb, SFcompare.
  destruct (Z.compare_spec e eB) as [-> | Hlt | Hgt]; [| reflexivity | lia].
  rewrite Z.sub_diag, Z.pow_0_r, Z.mul_1_r in Hle.
  change (Pos.compare_cont Eq m mB) with (Pos.compare m mB).
  destruct (Pos.compare_spec m mB); [reflexivity | reflexivity | lia].
Qed.

Lemma canonical_of_valid (s : bool) (m : positive) (e : Z) :
  valid_binary (S754_finite s m e) = true ->
  fexp prec emax (Zpos (digits2_pos m) + e) = e /\ e <= emax - prec.
Proof.
  unfold valid_binary, SpecFloat.valid_binary, bounded, canonical_mantissa. intro H.
  apply andb_prop in H as [H1 H2]. apply Z.eqb_eq in H1. apply Z.leb_le in H2. auto.
Qed.

Lemma bound_of_leb (m mB : positive) (e eB : Z) :
  valid_binary (S754_finite false m e) = true ->
  valid_binary (S754_finite false mB eB) = true ->
  SFleb (S754_finite false m e) (S754_finite false mB eB) = true ->
  e <= eB /\ Zpos m <= Zpos mB * 2 ^ (eB - e).
Proof.
  intros Hv HvB Hle.
  destruct (canonical_of_valid _ _ _ Hv) as [Hc _].
  destruct (canonical_of_valid _ _ _ HvB) as [HcB _].
  unfold SFleb, SFcompare in Hle.
  destruct (Z.compare_spec e eB) as [<- | Hlt | Hgt].
  - rewrite Z.sub_diag, Z.pow_0_r, Z.mul_1_r. split; [lia |].
    change (PosDef.Pos.compare_cont Eq m mB) with (Pos.compare m mB) in Hle.
    destruct (Pos.compare_spec m mB); [lia | lia | discriminate].
  - split; [lia |].
    pose proof (digits2_bounds m) as [_ Hm]. pose proof (digits2_bounds mB) as [HmB _].
    assert (Hdm : Zpos (digits2_pos m) <= 53) by (unfold_fexp; lia).
    assert (HdB : Zpos (digits2_pos mB) = 53) by (unfold_fexp; lia).
    rewrite HdB in HmB.
    assert (H2 : 2 <= 2 ^ (eB - e)).
    { replace 2 with (2 ^ 1) at 1 by reflexivity. apply Z.pow_le_mono_r; lia. }
    assert (H53 : 2 ^ Zpos (digits2_pos m) <= 2 ^ 53) by (apply Z.pow_le_mono_r; lia).
    change (2 ^ (53 - 1)) with 4503599627370496 in HmB.
    change (2 ^ 53) with 9007199254740992 in H53. nia.
  - discriminate.
Qed.

Lemma div_core_spec (m1 m2 : positive) (e1 e2 : Z) :
  match SFdiv_core_binary prec emax (Zpos m1) e1 (Zpos m2) e2 with
  | (q, e', l) =>
      e' <= e1 - e2
      /\ e' <= fexp prec emax (Zpos (digits2_pos m1) + e1 - (Zpos (digits2_pos m2) + e2))
      /\ 0 <= q /\ q * Zpos m2 <= Zpos m1 * 2 ^ (e1 - e2 - e')
      /\ (loc_inexact l = true -> q * Zpos m2 < Zpos m1 * 2 ^ (e1 - e2 - e'))
  end.
Proof.
  unfold SFdiv_core_binary. rewrite !Zdigits2_pos.
  set (e' := Z.min (fexp prec emax (Zpos (digits2_pos m1) + e1 - (Zpos (digits2_pos m2) + e2)))
               (e1 - e2)).
  assert (Hs : 0 <= e1 - e2 - e') by lia.
  assert (Hm' : match e1 - e2 - e' with
                | Zpos _ => Z.shiftl (Zpos m1) (e1 - e2 - e')
                | Z0 => Zpos m1
                | Zneg _ => 0
                end = Zpos m1 * 2 ^ (e1 - e2 - e')).
  { destruct (e1 - e2 - e') eqn:E; [lia | | lia].
    rewrite Z.shiftl_mul_pow2 by lia. reflexivity. }
  rewrite Hm'.
  pose proof (Z_div_mod (Zpos m1 * 2 ^ (e1 - e2 - e')) (Zpos m2) ltac:(lia)) as Hd.
  destruct (Z.div_eucl (Zpos m1 * 2 ^ (e1 - e2 - e')) (Zpos m2)) as [q r].
  destruct Hd as [Hq Hr].
  assert (Hp : 0 < 2 ^ (e1 - e2 - e')) by (apply Z.pow_pos_nonneg; lia).
  split; [lia | split; [lia | split; [nia | split; [nia |]]]].
  intro Hl. assert (r <> 0).
  { intro Hr0. rewrite Hr0 in Hl. revert Hl.
    unfold new_location, new_location_even, new_location_odd.
    destruct (Z.even _); simpl; discriminate. }
  nia.
Qed.

Lemma sf_one : Prim2SF 1 = S754_finite false 4503599627370496 (-52).
Proof. vm_compute. reflexivity. Qed.

Lemma sf_hundred : Prim2SF 100 = S754_finite false 7036874417766400 (-46).
Proof. vm_compute. reflexivity. Qed.

(** [v / 100.0] lies in [[0, 1]] when [v] lies in [[0, 100]]. *)
Lemma div100_range (v : float) :
  (0 <=? v)%float = true -> (v <=? 100)%float = true ->
  (0 <=? v / 100)%float = true /\ (v / 100 <=? 1)%float = true.
Proof.
  rewrite !leb_spec, FloatAxioms.div_spec, sf_one, sf_hundred.
  change (Prim2SF 0) with (S754_zero false).
  pose proof (Prim2SF_valid v) as Hv.
  destruct (Prim2SF v) as [s | s | | s m e]; intros H0 H1.
  - destruct s; split; reflexivity.
  - destruct s; discriminate.
  - discriminate.
  - destruct s; [discriminate |].
    destruct (bound_of_leb m 7036874417766400 e (-46) Hv ltac:(reflexivity) H1) as [He Hm].
    unfold SF64div, SFdiv.
    pose proof (div_core_spec m 7036874417766400 e (-46)) as Hc.
    destruct (SFdiv_core_binary prec emax (Zpos m) e (Zpos 7036874417766400) (-46))
      as [[q e'] l].
    destruct Hc as [He1 [He2 [Hq [Hqm Hql]]]].
    pose proof (digits_le m 7036874417766400 (-46 - e) ltac:(lia) Hm) as Hdig.
    change (Zpos (digits2_pos 7036874417766400)) with 53 in *.
    assert (He' : e' <= -53) by (unfold_fexp; lia).
    assert (Hbound : q * 7036874417766400 <= 7036874417766400 * 2 ^ (- e')).
    { replace (- e') with ((-46 - e) + (e - -46 - e')) by lia.
      rewrite Z.pow_add_r by lia.
      assert (0 < 2 ^ (e - -46 - e')) by (apply Z.pow_pos_nonneg; lia). nia. }
    assert (Hsc : 4503599627370496 * 2 ^ (-52 - e') = 2 ^ (- e')).
    { replace (- e') with (52 + (-52 - e')) by lia.
      rewrite Z.pow_add_r by lia. reflexivity. }
    pose proof (round_aux_le q e' l 4503599627370496 (-52) Hq ltac:(lia)
                  ltac:(reflexivity) ltac:(unfold_fexp; lia)) as R.
    rewrite Hsc in R. specialize (R ltac:(lia)).
    specialize (R ltac:(intro Hi; specialize (Hql Hi);
      replace (- e') with ((-46 - e) + (e - -46 - e')) by lia;
      rewrite Z.pow_add_r by lia;
      assert (0 < 2 ^ (e - -46 - e')) by (apply Z.pow_pos_nonneg; lia); nia)).
    change (xorb false false) with false.
    destruct (binary_round_aux prec emax false q e' l) as [s' | | | [] m' e'']; try contradiction.
    + destruct s'; split; reflexivity.
    + split; [reflexivity |]. destruct R as [R1 R2]. apply leb_of_bound; assumption.
Qed.

(** [q * k] lies in [[0, k]] when [q] lies in [[0, 1]] and [k] is positive
    and finite. *)
Lemma mul_bound (q k : float) (mk : positive) (ek : Z) :
  (0 <=? q)%float = true -> (q <=? 1)%float = true ->
  Prim2SF k = S754_finite false mk ek ->
  match Prim2SF (q * k) with
  | S754_zero _ => True
  | S754_finite false m e => e <= ek /\ Zpos m <= Zpos mk * 2 ^ (ek - e)
  | _ => False
  end.
Proof.
  rewrite !leb_spec, mul_spec, sf_one. intros H0 H1 Hk. rewrite Hk.
  change (Prim2SF 0) with (S754_zero false) in H0.
  pose proof (Prim2SF_valid k) as Hvk. rewrite Hk in Hvk.
  destruct (canonical_of_valid _ _ _ Hvk) as [Hck Hek].
  pose proof (Prim2SF_valid q) as Hv.
  destruct (Prim2SF q) as [s | s | | s m e].
  - exact I.
  - destruct s; discriminate.
  - discriminate.
  - destruct s; [discriminate |].
    destruct (bound_of_leb m 4503599627370496 e (-52) Hv ltac:(reflexivity) H1) as [He Hm].
    unfold SF64mul, SFmul. change (xorb false false) with false.
    assert (Hsc : 4503599627370496 * 2 ^ (-52 - e) = 2 ^ (- e)).
    { replace (- e) with (52 + (-52 - e)) by lia.
      rewrite Z.pow_add_r by lia. reflexivity. }
    rewrite Hsc in Hm.
    pose proof (round_aux_le (Zpos (m * mk)) (e + ek) loc_Exact mk ek ltac:(lia) ltac:(lia)
                  Hck Hek) as R.
    replace (ek - (e + ek)) with (- e) in R by lia.
    specialize (R ltac:(rewrite Pos2Z.inj_mul; nia) ltac:(discriminate)).
    destruct (binary_round_aux prec emax false (Zpos (m * mk)) (e + ek) loc_Exact)
      as [| | | [] m' e'']; exact R.
Qed.

Lemma round_half_even_le (m e K : Z) :
  0 <= m -> 0 <= K ->
  (e < 0 -> m <= K * 2 ^ (- e)) -> (0 <= e -> m * 2 ^ e <= K) ->
  0 <= round_half_even m e <= K.
Proof.
  intros Hm HK Hneg Hnn. unfold round_half_even.
  destruct (Z.leb_spec 0 e) as [He | He].
  - specialize (Hnn He). assert (0 < 2 ^ e) by (apply Z.pow_pos_nonneg; lia). nia.
  - specialize (Hneg He). cbv zeta.
    set (d := 2 ^ (- e)).
    assert (Hd : 0 < d) by (apply Z.pow_pos_nonneg; lia).
    pose proof (Z.div_mod m d ltac:(lia)) as Hdm.
    pose proof (Z.mod_pos_bound m d Hd) as Hr.
    assert (Hq0 : 0 <= m / d) by (apply Z.div_pos; lia).
    assert (HqK : m / d <= K) by (apply Z.div_le_upper_bound; lia).
    assert (Hlt : 0 < m mod d -> m / d < K) by nia.
    destruct (Z.compare_spec (2 * (m mod d)) d) as [Heq | Hc | Hc].
    + destruct (Z.even (m / d)); lia.
    + lia.
    + lia.
Qed.

Lemma exact_round (m : positive) (e : Z) :
  fexp prec emax (Zpos (digits2_pos m) + e) = e -> e <= emax - prec ->
  binary_round_aux prec emax false (Zpos m) e loc_Exact = S754_finite false m e.
Proof.
  intros Hc Hmax. unfold binary_round_aux.
  destruct (shr_fexp_spec (Zpos m) e loc_Exact ltac:(lia)) as [M1 [E1 [_ I1]]].
  destruct (shr_fexp prec emax (Zpos m) e loc_Exact) as [r1 e1]. cbn [fst snd] in *.
  rewrite Zdigits2_pos, Hc, Z.sub_diag in M1, E1, I1. cbn [Z.max] in M1, E1, I1.
  rewrite Z.pow_0_r, Z.div_1_r in M1. rewrite Z.add_0_r in E1. subst e1.
  rewrite Z.mod_1_r in I1. simpl in I1.
  pose proof (round_nearest_even_bounds r1) as Hr. rewrite I1 in Hr.
  change (if false then 1 else 0) with 0 in Hr. rewrite M1 in Hr |- *.
  replace (round_nearest_even (Zpos m) (loc_of_shr_record r1)) with (Zpos m) by lia.
  destruct (shr_fexp_spec (Zpos m) e loc_Exact ltac:(lia)) as [M2 [E2 _]].
  destruct (shr_fexp prec emax (Zpos m) e loc_Exact) as [r2 e2]. cbn [fst snd] in *.
  rewrite Zdigits2_pos, Hc, Z.sub_diag in M2, E2. cbn [Z.max] in M2, E2.
  rewrite Z.pow_0_r, Z.div_1_r in M2. rewrite Z.add_0_r in E2. subst e2.
  rewrite M2. replace (e <=? emax - prec) with true by (symmetry; apply Z.leb_le; lia).
  reflexivity.
Qed.

Lemma iter_xO_mul (p d : positive) : Zpos (Pos.iter xO p d) = Zpos p * 2 ^ Zpos d.
Proof.
  induction d as [| d IH] using Pos.peano_ind.
  - simpl. lia.
  - rewrite Pos.iter_succ, Pos2Z.inj_succ, Z.pow_succ_r by lia.
    change (Zpos (Pos.iter xO p d)~0) with (2 * Zpos (Pos.iter xO p d)). rewrite IH. ring.
Qed.

(** [float(n)] is exact for [0 < n < 2^53]. *)
Lemma int_to_float_exact (n : Z) :
  0 < n < 2 ^ 53 ->
  exists k mk ek, py_int_to_float n = Ok k /\ Prim2SF k = S754_finite false mk ek
    /\ ek <= 0 /\ Zpos mk = n * 2 ^ (- ek).
Proof.
  intros Hn. destruct n as [| p | p]; try lia.
  pose proof (digits2_bounds p) as [Hlo Hhi].
  set (dp := Zpos (digits2_pos p)) in *.
  assert (Hdp : dp <= 53).
  { assert (H : 2 ^ (dp - 1) < 2 ^ 53) by lia. apply Z.pow_lt_mono_r_iff in H; lia. }
  assert (Hdp1 : 1 <= dp) by lia.
  assert (Hf : fexp prec emax (dp + 0) = dp - 53) by (unfold_fexp; lia).
  (* the aligned mantissa *)
  assert (Hal : exists mz, shl_align p 0 (fexp prec emax (dp + 0)) = (mz, dp - 53)
                  /\ Zpos mz = Zpos p * 2 ^ (53 - dp)).
  { rewrite Hf. unfold shl_align. rewrite Z.sub_0_r.
    destruct (dp - 53) as [| d | d] eqn:Ed.
    - exists p. split; [f_equal; lia |]. replace (53 - dp) with 0 by lia. lia.
    - lia.
    - exists (Pos.iter xO p d). split; [reflexivity |].
      rewrite iter_xO_mul. f_equal. f_equal. lia. }
  destruct Hal as [mz [Hal Hmz]].
  assert (Hp53 : 0 < 2 ^ (53 - dp)) by (apply Z.pow_pos_nonneg; lia).
  assert (Hdz : Zpos (digits2_pos mz) = 53).
  { pose proof (digits2_bounds mz) as [Hl2 Hh2].
    assert (A : 2 ^ 52 <= Zpos mz).
    { rewrite Hmz. replace 52 with ((dp - 1) + (53 - dp)) by lia.
      rewrite Z.pow_add_r by lia. nia. }
    assert (B : Zpos mz < 2 ^ 53).
    { rewrite Hmz. replace 53 with (dp + (53 - dp)) at 2 by lia.
      rewrite Z.pow_add_r by lia. nia. }
    assert (C1 : 2 ^ (Zpos (digits2_pos mz) - 1) < 2 ^ 53) by lia.
    assert (C2 : 2 ^ 52 < 2 ^ Zpos (digits2_pos mz)) by lia.
    apply Z.pow_lt_mono_r_iff in C1; [| lia | lia].
    apply Z.pow_lt_mono_r_iff in C2; [| lia | lia]. lia. }
  assert (Hcan : fexp prec emax (Zpos (digits2_pos mz) + (dp - 53)) = dp - 53)
    by (rewrite Hdz; unfold_fexp; lia).
  assert (Hb : dp - 53 <= emax - prec) by (unfold_fexp; lia).
  assert (Hr : binary_normalize prec emax (Zpos p) 0 false = S754_finite false mz (dp - 53)).
  { unfold binary_normalize, binary_round. fold dp. rewrite Hal.
    apply exact_round; assumption. }
  assert (Hv : valid_binary (S754_finite false mz (dp - 53)) = true).
  { unfold valid_binary, SpecFloat.valid_binary, bounded, canonical_mantissa.
    rewrite Hcan, Z.eqb_refl. simpl. apply Z.leb_le. exact Hb. }
  exists (SF2Prim (S754_finite false mz (dp - 53))), mz, (dp - 53).
  split; [| split; [apply Prim2SF_SF2Prim; exact Hv | split; [lia |]]].
  - unfold py_int_to_float. rewrite Hr. reflexivity.
  - rewrite Hmz. f_equal. f_equal. lia.
Qed.

Lemma py_round_zero_sf (y : float) (s : bool) : Prim2SF y = S754_zero s -> py_round y = Ok 0.
Proof. intro H. unfold py_round. rewrite H. reflexivity. Qed.

(** [row_for(v)] is a row of the canvas for every height up to [2^53] and
    every [v] in [[0, 100]]. *)
Lemma row_for_in_range (h : Z) (v : float) :
  1 <= h <= 2 ^ 53 -> (0 <=? v)%float = true -> (v <=? 100)%float = true ->
  exists r, row_for h v = Ok r /\ 0 <= r <= h - 1.
Proof.
  intros Hh H0 H1.
  destruct (div100_range v H0 H1) as [Q0 Q1].
  unfold row_for.
  destruct (Z.eq_dec h 1) as [-> | Hh2].
  - change (py_int_to_float (1 - 1)) with (Ok 0%float). cbn [bind].
    assert (Hz : exists s, Prim2SF (v / 100 * 0)%float = S754_zero s).
    { rewrite mul_spec. change (Prim2SF 0) with (S754_zero false).
      rewrite leb_spec in Q0, Q1. rewrite sf_one in Q1. change (Prim2SF 0) with (S754_zero false) in Q0.
      destruct (Prim2SF (v / 100)) as [s | s | | s m e]; try (destruct s; discriminate);
        try discriminate; eexists; reflexivity. }
    destruct Hz as [s Hz]. rewrite (py_round_zero_sf _ _ Hz). cbn [bind].
    exists 0. split; [reflexivity | lia].
  - destruct (int_to_float_exact (h - 1) ltac:(lia)) as [k [mk [ek [Hk [Hpk [Hek Hmk]]]]]].
    rewrite Hk. cbn [bind].
    pose proof (mul_bound (v / 100) k mk ek Q0 Q1 Hpk) as Hb.
    unfold py_round.
    destruct (Prim2SF (v / 100 * k)%float) as [s | s | | [] my ey]; try contradiction.
    + cbn [bind]. exists (h - 1 - 0). split; [reflexivity | lia].
    + destruct Hb as [Hey Hmy].
      assert (HK : Zpos my <= (h - 1) * 2 ^ (- ey)).
      { replace (- ey) with (- ek + (ek - ey)) by lia.
        rewrite Z.pow_add_r, Z.mul_assoc, <- Hmk by lia. exact Hmy. }
      pose proof (round_half_even_le (Zpos my) ey (h - 1) ltac:(lia) ltac:(lia)
        ltac:(intros; exact HK)
        ltac:(intros; replace ey with 0 in * by lia; rewrite Z.pow_0_r;
                rewrite Z.opp_0, Z.pow_0_r in HK; lia)) as Hr.
      cbn [bind]. eexists. split; [reflexivity | lia].
Qed.

Lemma list_set_nth {A} (l : list A) (i : nat) (v : A) :
  (i < List.length l)%nat ->
  List.length (firstn i l ++ v :: skipn (S i) l) = List.length l
  /\ forall j d, nth j (firstn i l ++ v :: skipn (S i) l) d = if Nat.eqb j i then v else nth j l d.
Proof.
  revert i. induction l as [| a l IH]; intros i Hi; simpl in Hi; [lia |].
  destruct i as [| i].
  - simpl. split; [reflexivity |]. intros [| j] d; reflexivity.
  - destruct (IH i ltac:(lia)) as [IH1 IH2].
    change (firstn (S i) (a :: l) ++ v :: skipn (S (S i)) (a :: l))
      with (a :: (firstn i l ++ v :: skipn (S i) l)).
    split; [cbn [List.length]; rewrite IH1; reflexivity |].
    intros [| j] d; [reflexivity |]. cbn [nth]. rewrite IH2. reflexivity.
Qed.

Lemma py_list_set_ok {A} (l : list A) (i : Z) (v : A) :
  0 <= i < Z.of_nat (List.length l) ->
  exists l', py_list_set l i v = Ok l' /\ List.length l' = List.length l
    /\ forall j d, nth j l' d = if Nat.eqb j (Z.to_nat i) then v else nth j l d.
Proof.
  intros Hi. unfold py_list_set.
  replace (i <? 0) with false by (symmetry; apply Z.ltb_ge; lia).
  replace ((0 <=? i) && (i <? Z.of_nat (List.length l))) with true
    by (symmetry; apply andb_true_intro; split; [apply Z.leb_le | apply Z.ltb_lt]; lia).
  destruct (list_set_nth l (Z.to_nat i) v ltac:(lia)) as [H1 H2].
  eexists. split; [reflexivity | split; assumption].
Qed.

Lemma py_getitem_ok {A} (l : list A) (i : Z) (d : A) :
  0 <= i < Z.of_nat (List.length l) -> py_getitem l i = Ok (nth (Z.to_nat i) l d).
Proof.
  intros Hi. unfold py_getitem.
  replace (i <? 0) with false by (symmetry; apply Z.ltb_ge; lia).
  replace ((0 <=? i) && (i <? Z.of_nat (List.length l))) with true
    by (symmetry; apply andb_true_intro; split; [apply Z.leb_le | apply Z.ltb_lt]; lia).
  rewrite (nth_error_nth' l d) by lia. reflexivity.
Qed.

Lemma set_cell_ok (cv : canvas) (h n : nat) (r x : Z) (ch : ascii) :
  canvas_shape cv h n -> 0 <= r < Z.of_nat h -> 0 <= x < Z.of_nat n ->
  exists cv', set_cell cv r x ch = Ok cv' /\ canvas_shape cv' h n
    /\ forall r' x', cell cv' r' x' =
         if Nat.eqb r' (Z.to_nat r) && Nat.eqb x' (Z.to_nat x) then ch else cell cv r' x'.
Proof.
  intros [Hlen Hrows] Hr Hx. unfold set_cell.
  rewrite (py_getitem_ok cv r []) by lia. cbn [bind].
  assert (Hrow : List.length (nth (Z.to_nat r) cv []) = n).
  { rewrite Forall_forall in Hrows. apply Hrows, nth_In. lia. }
  destruct (py_list_set_ok (nth (Z.to_nat r) cv []) x ch ltac:(lia)) as [row' [E1 [L1 N1]]].
  rewrite E1. cbn [bind].
  destruct (py_list_set_ok cv r row' ltac:(lia)) as [cv' [E2 [L2 N2]]].
  rewrite E2. exists cv'. split; [reflexivity | split].
  - split; [lia |]. apply Forall_forall. intros row Hin.
    apply (In_nth cv' row []) in Hin as [j [Hj <-]].
    rewrite N2. destruct (Nat.eqb j (Z.to_nat r)); [lia |].
    rewrite Forall_forall in Hrows. apply Hrows, nth_In. lia.
  - intros r' x'. unfold cell. rewrite N2.
    destruct (Nat.eqb_spec r' (Z.to_nat r)) as [-> | _]; [| reflexivity].
    rewrite N1. reflexivity.
Qed.

Lemma nat_eqb_to_nat (r : nat) (z : Z) : 0 <= z -> Nat.eqb r (Z.to_nat z) = (Z.of_nat r =? z).
Proof.
  intro Hz. destruct (Nat.eqb_spec r (Z.to_nat z)), (Z.eqb_spec (Z.of_nat r) z); lia.
Qed.

Lemma draw_column_ok (cv : canvas) (h : Z) (n : nat) (x : Z) (c m : float) :
  canvas_shape cv (Z.to_nat h) n -> 1 <= h <= 2 ^ 53 -> 0 <= x < Z.of_nat n ->
  hist_ok c -> hist_ok m ->
  exists cv', draw_column h x c m cv = Ok cv' /\ canvas_shape cv' (Z.to_nat h) n
    /\ forall r' x', cell cv' r' x' =
         if Nat.eqb x' (Z.to_nat x) then marked_cell h c m r' (cell cv r' x') else cell cv r' x'.
Proof.
  intros Hs Hh Hx [Hc0 Hc1] [Hm0 Hm1].
  destruct (row_for_in_range h c Hh Hc0 Hc1) as [rc [Erc Hrc]].
  destruct (row_for_in_range h m Hh Hm0 Hm1) as [rm [Erm Hrm]].
  unfold draw_column, marked_cell. rewrite Erc, Erm. cbn [bind].
  destruct (Z.eqb_spec rc rm) as [<- | Hne].
  - destruct (set_cell_ok cv _ n rc x "@"%char Hs ltac:(lia) Hx) as [cv' [E [S C]]].
    exists cv'. split; [exact E | split; [exact S |]].
    intros r' x'. rewrite C, nat_eqb_to_nat by lia. unfold column_mark. rewrite Z.eqb_refl.
    destruct (Nat.eqb x' (Z.to_nat x)), (Z.of_nat r' =? rc); reflexivity.
  - destruct (set_cell_ok cv _ n rc x "#"%char Hs ltac:(lia) Hx) as [cv1 [E1 [S1 C1]]].
    destruct (set_cell_ok cv1 _ n rm x "*"%char S1 ltac:(lia) Hx) as [cv2 [E2 [S2 C2]]].
    rewrite E1. cbn [bind]. exists cv2. split; [exact E2 | split; [exact S2 |]].
    intros r' x'. rewrite C2, C1, !nat_eqb_to_nat by lia. unfold column_mark.
    replace (rc =? rm) with false by (symmetry; apply Z.eqb_neq; exact Hne).
    destruct (Z.of_nat x' =? x); [| rewrite !andb_false_r; reflexivity].
    rewrite !andb_true_r.
    destruct (Z.eqb_spec (Z.of_nat r') rc), (Z.eqb_spec (Z.of_nat r') rm); try reflexivity. lia.
Qed.

Lemma draw_columns_spec (h : Z) (n : nat) (cs : list float) :
  1 <= h <= 2 ^ 53 -> Forall hist_ok cs ->
  forall ms x0 cv, List.length ms = List.length cs -> Forall hist_ok ms ->
  canvas_shape cv (Z.to_nat h) n -> 0 <= x0 -> x0 + Z.of_nat (List.length cs) <= Z.of_nat n ->
  exists cv', draw_columns h x0 cs ms cv = Ok cv' /\ canvas_shape cv' (Z.to_nat h) n
    /\ forall r' x', cell cv' r' x' =
         if Nat.leb (Z.to_nat x0) x' && Nat.ltb x' (Z.to_nat x0 + List.length cs)
         then marked_cell h (nth (x' - Z.to_nat x0) cs 0%float) (nth (x' - Z.to_nat x0) ms 0%float)
                r' (cell cv r' x')
         else cell cv r' x'.
Proof.
  intros Hh Hcs. induction Hcs as [| c cs Hc Hcs IH]; intros ms x0 cv Hlen Hms Hs Hx0 Hn.
  - exists cv. destruct ms; [| discriminate]. split; [reflexivity | split; [exact Hs |]].
    intros r' x'. rewrite Nat.add_0_r.
    destruct (Nat.leb_spec (Z.to_nat x0) x'), (Nat.ltb_spec x' (Z.to_nat x0)); try lia;
      reflexivity.
  - destruct ms as [| m ms]; [discriminate |]. simpl in Hlen. injection Hlen as Hlen.
    inversion Hms as [| ? ? Hm Hms']; subst.
    simpl List.length in Hn.
    destruct (draw_column_ok cv h n x0 c m Hs Hh ltac:(lia) Hc Hm) as [cv1 [E1 [S1 C1]]].
    destruct (IH ms (x0 + 1) cv1 Hlen Hms' S1 ltac:(lia) ltac:(lia)) as [cv2 [E2 [S2 C2]]].
    exists cv2. cbn [draw_columns]. rewrite E1. cbn [bind]. split; [exact E2 | split; [exact S2 |]].
    intros r' x'. rewrite C2, C1. replace (Z.to_nat (x0 + 1)) with (S (Z.to_nat x0)) by lia.
    simpl List.length.
    destruct (Nat.eqb_spec x' (Z.to_nat x0)) as [-> | Hne].
    + replace (Nat.leb (S (Z.to_nat x0)) (Z.to_nat x0)) with false
        by (symmetry; apply Nat.leb_gt; lia).
      rewrite Nat.leb_refl, Nat.sub_diag. simpl andb.
      replace (Nat.ltb (Z.to_nat x0) (Z.to_nat x0 + S (List.length cs))) with true
        by (symmetry; apply Nat.ltb_lt; lia).
      reflexivity.
    + replace (Nat.eqb x' (Z.to_nat x0)) with false by (symmetry; apply Nat.eqb_neq; exact Hne).
      destruct (Nat.leb_spec (S (Z.to_nat x0)) x'), (Nat.leb_spec (Z.to_nat x0) x');
        try lia; simpl andb.
      * replace (x' - Z.to_nat x0)%nat with (S (x' - S (Z.to_nat x0))) by lia.
        replace (Z.to_nat x0 + S (List.length cs))%nat
          with (S (Z.to_nat x0 + List.length cs)) by lia.
        reflexivity.
      * reflexivity.
Qed.

Lemma nth_repeat_any {A} (a d : A) (k i : nat) :
  nth i (repeat a k) d = if Nat.ltb i k then a else d.
Proof.
  revert i. induction k as [| k IH]; intros [| i]; try reflexivity. simpl. apply IH.
Qed.

Lemma empty_canvas_shape (h : Z) (n : nat) : canvas_shape (empty_canvas h n) (Z.to_nat h) n.
Proof.
  unfold empty_canvas. split; [apply repeat_length |].
  apply Forall_forall. intros row Hin. apply repeat_spec in Hin. subst. apply repeat_length.
Qed.

Lemma empty_canvas_cell (h : Z) (n r x : nat) : cell (empty_canvas h n) r x = blank.
Proof.
  unfold cell, empty_canvas. rewrite nth_repeat_any.
  destruct (Nat.ltb r (Z.to_nat h)); [rewrite nth_repeat_any; destruct (Nat.ltb x n) |];
    destruct x; reflexivity.
Qed.

Lemma tail_slice_length {A} (n : nat) (l : list A) :
  (n <= List.length l)%nat -> (n = 0%nat -> l = []) -> List.length (py_tail_slice n l) = n.
Proof.
  intros Hn H0. unfold py_tail_slice.
  destruct (Nat.eqb_spec n 0) as [-> | Hne].
  - rewrite (H0 eq_refl). reflexivity.
  - rewrite length_skipn. lia.
Qed.

Lemma tail_slice_forall {A} (P : A -> Prop) (n : nat) (l : list A) :
  Forall P l -> Forall P (py_tail_slice n l).
Proof.
  intro H. unfold py_tail_slice. destruct (Nat.eqb n 0); [exact H |].
  rewrite <- (firstn_skipn (List.length l - n) l) in H.
  apply Forall_app in H as [_ H]. exact H.
Qed.

Lemma canvas_height_bounds (lines : Z) : 1 <= canvas_height lines <= 2 ^ 53.
Proof. unfold canvas_height. split; [lia |]. apply Z.le_trans with 24; [lia | discriminate]. Qed.

Lemma graph_frame_spec (st : gstate) (columns lines : Z) :
  List.length (mem_hist st) = List.length (cpu_hist st) ->
  Forall hist_ok (cpu_hist st) -> Forall hist_ok (mem_hist st) ->
  let h := canvas_height lines in
  let n := Nat.min (List.length (cpu_hist st)) (Z.to_nat (canvas_width columns)) in
  let cpu_view := py_tail_slice n (cpu_hist st) in
  let mem_view := py_tail_slice n (mem_hist st) in
  exists cv, graph_frame st (columns, lines) = Ok cv /\ canvas_shape cv (Z.to_nat h) n
    /\ forall r x, cell cv r x =
         if Nat.ltb x n then marked_cell h (nth x cpu_view 0%float) (nth x mem_view 0%float) r blank
         else blank.
Proof.
  intros Hlen Hc Hm h n cpu_view mem_view.
  assert (Hn : n = Nat.min (List.length (cpu_hist st)) (Z.to_nat (canvas_width columns)))
    by reflexivity.
  assert (Hw : (30 <= Z.to_nat (canvas_width columns))%nat) by (unfold canvas_width; lia).
  assert (Lc : List.length cpu_view = n).
  { apply tail_slice_length; [lia |]. intro Hn0. apply length_zero_iff_nil. lia. }
  assert (Lm : List.length mem_view = n).
  { apply tail_slice_length; [lia |]. intro Hn0. apply length_zero_iff_nil. lia. }
  destruct (draw_columns_spec h n cpu_view (canvas_height_bounds lines)
              (tail_slice_forall _ _ _ Hc) mem_view 0 (empty_canvas h n)
              ltac:(congruence) (tail_slice_forall _ _ _ Hm) (empty_canvas_shape h n)
              ltac:(lia) ltac:(lia)) as [cv [E [S C]]].
  exists cv. split; [exact E | split; [exact S |]].
  intros r x. rewrite C, empty_canvas_cell, Lc. simpl Z.to_nat. rewrite Nat.sub_0_r. reflexivity.
Qed.

(** ** Graph mode: frames and the loop *)

Lemma ginv_init : ginv graph_init.
Proof. repeat split; constructor. Qed.

Lemma ginv_append (st : gstate) (s : sample) : ginv st -> ginv (append_sample st s).
Proof.
  destruct s as [c m]. intros (L & Hc & Hm & Hk). unfold ginv; simpl.
  rewrite !length_app. simpl. split; [lia |]. split; [| split].
  - apply Forall_app. split; [exact Hc |]. constructor; [apply hist_value_range | constructor].
  - apply Forall_app. split; [exact Hm |]. constructor; [apply hist_value_range | constructor].
  - lia.
Qed.

Lemma ginv_fold (samples : list sample) :
  forall st, ginv st -> ginv (fold_left append_sample samples st).
Proof.
  induction samples as [| s rest IH]; simpl; [auto |].
  intros st H. apply IH, ginv_append, H.
Qed.

Lemma graph_frame_ok (st : gstate) (size : Z * Z) :
  ginv st -> exists cv, graph_frame st size = Ok cv.
Proof.
  intros (L & Hc & Hm & _). destruct size as [columns lines].
  destruct (graph_frame_spec st columns lines L Hc Hm) as [cv [E _]]. eauto.
Qed.

Lemma hist_rows (h : Z) (l : list float) :
  1 <= h <= 2 ^ 53 -> Forall hist_ok l ->
  Forall (fun v => exists r, row_for h v = Ok r /\ 0 <= r <= h - 1) l.
Proof.
  intros Hh H. apply (Forall_impl _ (fun v Hv => row_for_in_range h v Hh (proj1 Hv) (proj2 Hv)) H).
Qed.

(** Claim C10: for every height [h] with [1 <= h <= 2^53], which includes
    every height the program draws with (10 to 24), and every value [v] in
    [[0, 100]],
    [row_for(v)] is in [[0, h - 1]]; hence, for the histories built by the
    display loop from any samples, every history value has a row in range
    for the frame height, and drawing a frame raises no error. *)
Theorem row_for_in_bounds :
  (forall (h : Z) (v : float), 1 <= h <= 2 ^ 53 -> hist_ok v ->
     exists r, row_for h v = Ok r /\ 0 <= r <= h - 1)
  /\ (forall (samples : list sample) (columns lines : Z),
       let st := fold_left append_sample samples graph_init in
       (exists cv, graph_frame st (columns, lines) = Ok cv)
       /\ Forall (fun v => exists r, row_for (canvas_height lines) v = Ok r
                                   /\ 0 <= r <= canvas_height lines - 1)
                 (cpu_hist st ++ mem_hist st)).
Proof.
  split.
  - intros h v Hh [H0 H1]. exact (row_for_in_range h v Hh H0 H1).
  - intros samples columns lines st.
    pose proof (ginv_fold samples graph_init ginv_init) as Hinv.
    split; [exact (graph_frame_ok st (columns, lines) Hinv) |].
    destruct Hinv as (_ & Hc & Hm & _).
    apply Forall_app. split; apply hist_rows; auto using canvas_height_bounds.
Qed.

Lemma row_for_in_bounds_witness :
  (1 <= 24 <= 2 ^ 53 /\ hist_ok 100)
  /\ exists r, row_for 24 100 = Ok r /\ 0 <= r <= 24 - 1.
Proof.
  assert (H : 1 <= 24 <= 2 ^ 53 /\ hist_ok 100) by (split; [lia | split; reflexivity]).
  split; [exact H |].
  exact (proj1 row_for_in_bounds 24 100%float (proj1 H) (proj2 H)).
Defined.

(** C8: in the canvas of a frame drawn from histories of equal length with
    values in [[0, 100]], each column [x < n] holds exactly the markers of
    its two values: with [rc = row_for(cpu_view[x])] and
    [rm = row_for(mem_view[x])], if [rc = rm] the column holds one ["@"] at
    row [rc] and blanks elsewhere; otherwise it holds ["#"] at row [rc],
    ["*"] at row [rm] and blanks elsewhere (the mem write does not overwrite
    the cpu one). *)
Theorem graph_column_markers (st : gstate) (columns lines : Z) :
  List.length (mem_hist st) = List.length (cpu_hist st) ->
  Forall hist_ok (cpu_hist st) -> Forall hist_ok (mem_hist st) ->
  let h := canvas_height lines in
  let n := Nat.min (List.length (cpu_hist st)) (Z.to_nat (canvas_width columns)) in
  let cpu_view := py_tail_slice n (cpu_hist st) in
  let mem_view := py_tail_slice n (mem_hist st) in
  exists cv, graph_frame st (columns, lines) = Ok cv /\ canvas_shape cv (Z.to_nat h) n
  /\ forall x, (x < n)%nat ->
     exists rc rm, row_for h (nth x cpu_view 0%float) = Ok rc
       /\ row_for h (nth x mem_view 0%float) = Ok rm
       /\ 0 <= rc < h /\ 0 <= rm < h
       /\ forall r, cell cv r x =
            if rc =? rm then (if Z.of_nat r =? rc then "@"%char else blank)
            else if Z.of_nat r =? rc then "#"%char
            else if Z.of_nat r =? rm then "*"%char
            else blank.
Proof.
  intros L Hc Hm h n cpu_view mem_view.
  destruct (graph_frame_spec st columns lines L Hc Hm) as [cv [E [S C]]].
  exists cv. split; [exact E | split; [exact S |]].
  intros x Hx.
  pose proof (canvas_height_bounds lines) as Hh.
  assert (Hrow : forall l, Forall hist_ok l -> forall d, hist_ok d ->
            exists r, row_for h (nth x (py_tail_slice n l) d) = Ok r /\ 0 <= r <= h - 1).
  { intros l Hl d Hd.
    destruct (nth_in_or_default x (py_tail_slice n l) d) as [Hin | ->].
    - pose proof (proj1 (Forall_forall _ _) (hist_rows h _ Hh (tail_slice_forall _ n l Hl)) _ Hin).
      exact H.
    - exact (row_for_in_range h d Hh (proj1 Hd) (proj2 Hd)). }
  assert (H0 : hist_ok 0%float) by (split; reflexivity).
  destruct (Hrow _ Hc _ H0) as [rc [Erc Hrc]].
  destruct (Hrow _ Hm _ H0) as [rm [Erm Hrm]].
  change (py_tail_slice n (cpu_hist st)) with cpu_view in Erc.
  change (py_tail_slice n (mem_hist st)) with mem_view in Erm.
  exists rc, rm. split; [exact Erc |]. split; [exact Erm |].
  split; [lia |]. split; [lia |].
  intro r. specialize (C r x). apply Nat.ltb_lt in Hx.
  fold h in C. fold n cpu_view mem_view in C. rewrite Hx in C. rewrite C.
  unfold marked_cell. rewrite Erc, Erm. unfold column_mark.
  destruct (Z.eqb_spec rc rm) as [<- | Hne]; destruct (Z.of_nat r =? rc); reflexivity.
Qed.

Lemma graph_column_markers_witness :
  exists cv, graph_frame (mk_gstate [50%float; 20%float] [50%float; 80%float] 2) (80, 24) = Ok cv.
Proof.
  destruct (graph_column_markers (mk_gstate [50%float; 20%float] [50%float; 80%float] 2) 80 24
              eq_refl
              ltac:(repeat constructor) ltac:(repeat constructor)) as [cv [E _]].
  exists cv. exact E.
Defined.

Lemma graph_loop_run (N : Z) (inputs : list (world * (Z * Z))) :
  forall st frames, ginv st -> 0 <= count st < N ->
  (Z.to_nat (N - count st) <= List.length inputs)%nat ->
  Forall (fun i => exists s, read_metrics (fst i) = Ok s) (firstn (Z.to_nat (N - count st)) inputs) ->
  exists st' frames', graph_loop N inputs st frames = Finished st' frames'
    /\ ginv st' /\ count st' = N
    /\ List.length frames' = (List.length frames + Z.to_nat (N - count st))%nat.
Proof.
  induction inputs as [| [w size] rest IH]; intros st frames Hinv Hk Hlen Hok.
  - simpl in Hlen. lia.
  - destruct (Z.to_nat (N - count st)) as [| k] eqn:Ek; [lia |].
    simpl in Hok. inversion Hok as [| ? ? [s Hs] Hrest]; subst. simpl in Hs.
    simpl. rewrite Hs.
    pose proof (ginv_append st s Hinv) as Hinv'.
    destruct (graph_frame_ok (append_sample st s) size Hinv') as [cv Hcv]. rewrite Hcv.
    assert (Hc' : count (append_sample st s) = count st + 1) by (destruct s; reflexivity).
    destruct (Z.ltb_spec 0 N) as [_ | ?]; [| lia]. cbn [andb].
    destruct (Z.leb_spec N (count (append_sample st s))) as [Hge | Hlt].
    + exists (append_sample st s), (frames ++ [cv]). split; [reflexivity |].
      split; [exact Hinv' |]. split; [lia |]. rewrite length_app. simpl. lia.
    + destruct (IH (append_sample st s) (frames ++ [cv]) Hinv') as (st' & fr' & H1 & H2 & H3 & H4).
      * lia.
      * simpl in Hlen. lia.
      * replace (Z.to_nat (N - count (append_sample st s))) with k by lia. exact Hrest.
      * exists st', fr'. split; [exact H1 |]. split; [exact H2 |]. split; [exact H3 |].
        rewrite H4, length_app. simpl. lia.
Qed.

(** C9: with a positive sample limit [N], on terminal sizes and hosts whose
    first [N] samplings succeed, the graph-mode loop started from empty
    histories stops at the [N]-th iteration: it ends with [count = N],
    [N] values in each history and [N] frames drawn. *)
Theorem graph_loop_exact_samples (N : Z) (inputs : list (world * (Z * Z))) :
  0 < N -> (Z.to_nat N <= List.length inputs)%nat ->
  Forall (fun i => exists s, read_metrics (fst i) = Ok s) (firstn (Z.to_nat N) inputs) ->
  exists st frames, graph_loop N inputs graph_init [] = Finished st frames
    /\ count st = N /\ List.length (cpu_hist st) = Z.to_nat N
    /\ List.length (mem_hist st) = Z.to_nat N /\ List.length frames = Z.to_nat N.
Proof.
  intros HN Hlen Hok.
  destruct (graph_loop_run N inputs graph_init [] ginv_init) as (st & fr & H1 & (L & _ & _ & Hk) & H3 & H4);
    simpl count; rewrite ?Z.sub_0_r; [lia | exact Hlen | exact Hok |].
  exists st, fr. split; [exact H1 |]. split; [exact H3 |].
  split; [lia |]. split; [lia |]. rewrite H4. simpl. lia.
Qed.

Lemma graph_loop_exact_samples_witness :
  exists st frames, graph_loop 2 two_runs graph_init [] = Finished st frames /\ count st = 2.
Proof.
  destruct (graph_loop_exact_samples 2 two_runs ltac:(lia) ltac:(simpl; lia)
              ltac:(repeat constructor; eexists; vm_compute; reflexivity))
    as (st & fr & H1 & H2 & _).
  exists st, fr. split; [exact H1 | exact H2].
Defined.

(** ** The command line and the y axis *)

(** [typeperf] is run with [-si max(1, int(interval))], where [interval]
    is [args.interval] when positive and [1.0] otherwise; an infinite
    [--interval] makes [int(interval)] raise [OverflowError]. *)
Lemma typeperf_cmd_of_interval (arg : float) :
  (arg = infinity -> typeperf_cmd (main_interval arg) = Raise OverflowError)
  /\ (arg <> infinity ->
      exists k, 0 <= k /\ py_int_of_float (main_interval arg) = Ok k
      /\ typeperf_cmd (main_interval arg)
         = Ok (["typeperf"; "-sc"; "1"; "-si"; dec (Z.max 1 k)]%string ++ typeperf_counters)).
Proof.
  split.
  - intros ->. vm_compute. reflexivity.
  - intros Hinf. unfold main_interval.
    destruct (0 <? arg)%float eqn:Hlt.
    + rewrite ltb_spec in Hlt. change (Prim2SF 0) with (S754_zero false) in Hlt.
      destruct (Prim2SF arg) as [s | s | | s m e] eqn:E; try (destruct s); try discriminate.
      * exfalso. apply Hinf, Prim2SF_inj. rewrite E. reflexivity.
      * assert (Ht : py_float_truthy arg = true).
        { unfold py_float_truthy. rewrite eqb_spec, E. reflexivity. }
        set (a := if 0 <=? e then Zpos m * 2 ^ e else Zpos m / 2 ^ (- e)).
        assert (Ha : 0 <= a).
        { unfold a. destruct (Z.leb_spec 0 e).
          - apply Z.mul_nonneg_nonneg; [lia | apply Z.pow_nonneg; lia].
          - apply Z.div_pos; [lia | apply Z.pow_pos_nonneg; lia]. }
        assert (Hi : py_int_of_float arg = Ok a) by (unfold py_int_of_float; rewrite E; reflexivity).
        exists a. split; [exact Ha |]. split; [exact Hi |].
        unfold typeperf_cmd. rewrite Ht, Hi. cbn [bind].
        unfold py_str_int. replace (Z.max 1 a <? 0) with false by (symmetry; apply Z.ltb_ge; lia).
        reflexivity.
    + exists 1. split; [lia |]. split; reflexivity.
Qed.

Lemma typeperf_cmd_of_interval_witness :
  (2.5%float <> infinity)
  /\ exists k, 0 <= k /\ py_int_of_float (main_interval 2.5) = Ok k
     /\ typeperf_cmd (main_interval 2.5)
        = Ok (["typeperf"; "-sc"; "1"; "-si"; dec (Z.max 1 k)]%string ++ typeperf_counters).
Proof.
  assert (H : 2.5%float <> infinity).
  { intro E. apply (f_equal (fun x => PrimFloat.eqb x infinity)) in E.
    vm_compute in E. discriminate. }
  split; [exact H |]. exact (proj2 (typeperf_cmd_of_interval 2.5) H).
Defined.


Lemma string_app_length (s1 s2 : string) :
  String.length (s1 ++ s2) = (String.length s1 + String.length s2)%nat.
Proof. induction s1 as [| c s1 IH]; simpl; [reflexivity | rewrite IH; reflexivity]. Qed.





(** ** The legend *)

Lemma dec_small_length (k : Z) : 0 <= k <= 100 -> (1 <= String.length (dec k) <= 3)%nat.
Proof.
  intros Hk.
  assert (Hall : forallb (fun i => Nat.leb 1 (String.length (dec (Z.of_nat i)))
                                   && Nat.leb (String.length (dec (Z.of_nat i))) 3)
                         (seq 0 101) = true) by (vm_compute; reflexivity).
  rewrite forallb_forall in Hall.
  specialize (Hall (Z.to_nat k) ltac:(apply in_seq; lia)).
  rewrite Z2Nat.id in Hall by lia.
  apply andb_prop in Hall as [H1 H2]. apply Nat.leb_le in H1, H2. lia.
Qed.

Lemma dec_digit_length (k : Z) : 0 <= k <= 9 -> String.length (dec k) = 1%nat.
Proof.
  intros Hk.
  assert (Hall : forallb (fun i => Nat.eqb (String.length (dec (Z.of_nat i))) 1) (seq 0 10) = true)
    by (vm_compute; reflexivity).
  rewrite forallb_forall in Hall.
  specialize (Hall (Z.to_nat k) ltac:(apply in_seq; lia)).
  rewrite Z2Nat.id in Hall by lia. apply Nat.eqb_eq, Hall.
Qed.

Lemma spaces_length (k : nat) : String.length (spaces k) = k.
Proof. induction k as [| k IH]; simpl; [reflexivity | rewrite IH; reflexivity]. Qed.

Lemma fixed1_length (x : float) :
  hist_ok x -> (3 <= String.length (fixed1 x) <= 5)%nat.
Proof.
  intros [H0 H1]. rewrite leb_spec in H0, H1.
  change (Prim2SF 0) with (S754_zero false) in H0.
  rewrite sf_hundred in H1.
  pose proof (Prim2SF_valid x) as Hv.
  unfold fixed1.
  destruct (Prim2SF x) as [s | s | | s m e]; try discriminate; [| destruct s; discriminate |].
  - destruct s; simpl; lia.
  - destruct s; [discriminate |].
    destruct (bound_of_leb m 7036874417766400 e (-46) Hv ltac:(reflexivity) H1) as [He Hm].
    assert (HN : 0 <= round_half_even (Zpos m * 10) e <= 1000).
    { apply round_half_even_le; try lia.
      intros _. replace (- e) with (46 + (-46 - e)) by lia.
      rewrite Z.pow_add_r by lia. change (2 ^ 46) with 70368744177664. lia. }
    set (N := round_half_even (Zpos m * 10) e) in *.
    simpl sign_str.
    rewrite !string_app_length.
    pose proof (dec_small_length (N / 10) ltac:(split; [apply Z.div_pos | apply Z.div_le_upper_bound]; lia)).
    rewrite (dec_digit_length (N mod 10) ltac:(pose proof (Z.mod_pos_bound N 10); lia)).
    cbn [String.length]. lia.
Qed.

Lemma fmt_5_1f_length (x : float) : hist_ok x -> String.length (fmt_5_1f x) = 5%nat.
Proof.
  intros H. pose proof (fixed1_length x H).
  unfold fmt_5_1f, pad_left. rewrite string_app_length, spaces_length. lia.
Qed.

Lemma format_line_length (c m : float) :
  hist_ok c -> hist_ok m -> String.length (format_line (Some c) (Some m)) = 28%nat.
Proof.
  intros Hc Hm. unfold format_line. simpl String.concat. cbn [String.length].
  rewrite !string_app_length. cbn [String.length].
  rewrite !string_app_length, (fmt_5_1f_length c Hc), (fmt_5_1f_length m Hm). reflexivity.
Qed.

Lemma getitem_last {A} (xs : list A) (v : A) : py_getitem (xs ++ [v]) (-1) = Ok v.
Proof.
  unfold py_getitem. rewrite length_app. simpl List.length.
  replace ((-1) <? 0) with true by reflexivity.
  replace (-1 + Z.of_nat (List.length xs + 1)) with (Z.of_nat (List.length xs)) by lia.
  replace ((0 <=? Z.of_nat (List.length xs)) && (Z.of_nat (List.length xs) <? Z.of_nat (List.length xs + 1)))
    with true by (symmetry; apply andb_true_intro; split; [apply Z.leb_le | apply Z.ltb_lt]; lia).
  rewrite Nat2Z.id, nth_error_app2, Nat.sub_diag by lia. reflexivity.
Qed.

Lemma tail_slice_snoc {A} (n : nat) (xs : list A) (v : A) :
  (1 <= n)%nat -> (n <= List.length xs + 1)%nat ->
  exists ys, py_tail_slice n (xs ++ [v]) = ys ++ [v].
Proof.
  intros H1 H2. unfold py_tail_slice.
  replace (Nat.eqb n 0) with false by (symmetry; apply Nat.eqb_neq; lia).
  rewrite skipn_app, length_app. simpl List.length.
  replace (List.length xs + 1 - n - List.length xs)%nat with 0%nat by lia.
  exists (skipn (List.length xs + 1 - n) xs). reflexivity.
Qed.

(** The legend of a frame shows the sample just appended, after the
    clamping of [append]; its status part is always 28 characters long. *)
Theorem legend_shows_latest (st : gstate) (s : sample) (columns : Z) :
  List.length (mem_hist st) = List.length (cpu_hist st) ->
  legend_status (append_sample st s) columns
    = Ok (format_line (Some (hist_value (fst s))) (Some (hist_value (snd s))))
  /\ String.length (format_line (Some (hist_value (fst s))) (Some (hist_value (snd s)))) = 28%nat.
Proof.
  intros L. destruct s as [c m]. simpl fst. simpl snd. split.
  - unfold legend_status, latest_values, append_sample. cbn [cpu_hist mem_hist].
    assert (Hw : (30 <= Z.to_nat (canvas_width columns))%nat) by (unfold canvas_width; lia).
    rewrite length_app. simpl List.length.
    set (n := Nat.min (List.length (cpu_hist st) + 1) (Z.to_nat (canvas_width columns))).
    destruct (tail_slice_snoc n (cpu_hist st) (hist_value c) ltac:(lia) ltac:(lia)) as [ys Ey].
    destruct (tail_slice_snoc n (mem_hist st) (hist_value m) ltac:(lia) ltac:(lia)) as [zs Ez].
    rewrite Ey, Ez, !getitem_last. reflexivity.
  - apply format_line_length; apply hist_value_range.
Qed.

Lemma legend_shows_latest_witness :
  List.length (mem_hist graph_init) = List.length (cpu_hist graph_init)
  /\ legend_status (append_sample graph_init (None, Some 55%float)) 80
     = Ok (format_line (Some 0%float) (Some 55%float)).
Proof.
  split; [reflexivity |].
  exact (proj1 (legend_shows_latest graph_init (None, Some 55%float) 80 eq_refl)).
Defined.

(** ** The /proc readers *)

(** [read_cpu_times] reads the first line that starts with ["cpu "] and
    ignores the lines after it; without such a line it returns [None]. *)
Theorem cpu_times_first_match (lines : list string) :
  (Forall (fun l => py_startswith l "cpu " = false) lines -> cpu_times_of_lines lines = Ok None)
  /\ (forall pre line post, lines = pre ++ line :: post ->
        Forall (fun l => py_startswith l "cpu " = false) pre ->
        py_startswith line "cpu " = true ->
        cpu_times_of_lines lines = cpu_times_of_lines [line]).
Proof.
  split.
  - induction lines as [| l ls IH]; intros H; [reflexivity |].
    inversion H as [| ? ? Hl Hls]; subst. simpl. rewrite Hl. apply IH, Hls.
  - intros pre line post -> Hpre Hline. induction pre as [| l pre IH].
    + simpl. rewrite Hline. reflexivity.
    + inversion Hpre as [| ? ? Hl Hrest]; subst. simpl. rewrite Hl. apply IH, Hrest.
Qed.

(** The pair returned by [read_cpu_times] is [idle = nums[3] + nums[4]]
    (the [iowait] field when present) and [total = sum(nums)] of the first
    line that starts with ["cpu "] (no line before it does), which has at
    least four fields; with non-negative fields, [0 <= idle <= total]. *)
Theorem cpu_times_idle_le_total (lines : list string) (idle total : Z) :
  cpu_times_of_lines lines = Ok (Some (idle, total)) ->
  exists pre line post nums, lines = pre ++ line :: post
    /\ Forall (fun l => py_startswith l "cpu " = false) pre
    /\ py_startswith line "cpu " = true
    /\ py_map py_int (tl (py_split_ws line)) = Ok nums
    /\ (4 <= List.length nums)%nat
    /\ idle = nth 3 nums 0 + (if Nat.ltb 4 (List.length nums) then nth 4 nums 0 else 0)
    /\ total = fold_right Z.add 0 nums
    /\ (Forall (fun k => 0 <= k) nums -> 0 <= idle <= total).
Proof.
  induction lines as [| line rest IH]; intros H; [discriminate |].
  simpl in H. destruct (py_startswith line "cpu ") eqn:Hs.
  - destruct (py_map py_int (tl (py_split_ws line))) as [nums |] eqn:En; [| discriminate].
    cbn [bind] in H.
    destruct nums as [| a [| b [| c [| d rest']]]]; try discriminate.
    cbn [bind py_index nth_error List.length Nat.ltb Nat.leb] in H.
    exists [], line, rest, (a :: b :: c :: d :: rest').
    split; [reflexivity |]. split; [constructor |].
    split; [exact Hs |]. split; [exact En |].
    split; [simpl; lia |].
    destruct rest' as [| e rest''].
    + cbn [bind py_index nth_error] in H. injection H as <- <-.
      split; [reflexivity |]. split; [reflexivity |].
      intros Hn. inversion Hn as [| ? ? Ha H1]; subst. inversion H1 as [| ? ? Hb H2]; subst.
      inversion H2 as [| ? ? Hc H3]; subst. inversion H3 as [| ? ? Hd _]; subst. simpl. lia.
    + cbn [bind py_index nth_error] in H. injection H as <- <-.
      split; [reflexivity |]. split; [reflexivity |].
      intros Hn. inversion Hn as [| ? ? Ha H1]; subst. inversion H1 as [| ? ? Hb H2]; subst.
      inversion H2 as [| ? ? Hc H3]; subst. inversion H3 as [| ? ? Hd H4]; subst.
      inversion H4 as [| ? ? He H5]; subst.
      assert (Hr : 0 <= fold_right Z.add 0 rest'').
      { clear -H5. induction rest'' as [| x xs IHx]; simpl; [lia |].
        inversion H5; subst. specialize (IHx ltac:(assumption)). lia. }
      simpl. lia.
  - destruct (IH H) as (pre & l & post & nums & -> & Hpre & R).
    exists (line :: pre), l, post, nums.
    split; [reflexivity |]. split; [constructor; assumption | exact R].
Qed.

Lemma cpu_times_first_match_witness :
  exists line post, py_file_lines stat_a = [] ++ line :: post
  /\ cpu_times_of_lines (py_file_lines stat_a) = cpu_times_of_lines [line].
Proof.
  exists ("cpu  800 0 100 100 0 0 0 0 0 0" ++ nl)%string, [("cpu0 400 0 50 50" ++ nl)%string].
  assert (E : py_file_lines stat_a
              = [] ++ ("cpu  800 0 100 100 0 0 0 0 0 0" ++ nl)%string :: [("cpu0 400 0 50 50" ++ nl)%string])
    by (vm_compute; reflexivity).
  split; [exact E |].
  exact (proj2 (cpu_times_first_match (py_file_lines stat_a)) [] _ _ E (Forall_nil _)
           ltac:(vm_compute; reflexivity)).
Defined.

Lemma cpu_times_idle_le_total_witness :
  cpu_times_of_lines (py_file_lines stat_a) = Ok (Some (100, 1000))
  /\ exists pre line post nums, py_file_lines stat_a = pre ++ line :: post
       /\ Forall (fun l => py_startswith l "cpu " = false) pre
       /\ 1000 = fold_right Z.add 0 nums.
Proof.
  assert (E : cpu_times_of_lines (py_file_lines stat_a) = Ok (Some (100, 1000)))
    by (vm_compute; reflexivity).
  split; [exact E |].
  destruct (cpu_times_idle_le_total _ _ _ E)
    as (pre & line & post & nums & Hl & Hpre & _ & _ & _ & _ & Ht & _).
  exists pre, line, post, nums. split; [exact Hl |]. split; assumption.
Defined.

(** [time.sleep] returns for one second and for [9e9] seconds; it raises
    [OverflowError] for [1e10] seconds and for an infinite duration,
    [ValueError] for NaN and for a negative duration. *)
Lemma py_sleep_cases :
  py_sleep 1 = Ok tt /\ py_sleep 9000000000 = Ok tt
  /\ py_sleep 10000000000 = Raise OverflowError /\ py_sleep infinity = Raise OverflowError
  /\ py_sleep nan = Raise ValueError /\ py_sleep (-1) = Raise ValueError.
Proof. vm_compute. repeat split. Qed.

(** Once its sleep returns, [_read_linux_proc(interval)] gives what
    [read_linux_proc] gives. *)
Lemma read_linux_proc_at_sleep (interval : float) (stat1 stat2 : string)
    (meminfo : option string) :
  py_sleep (if py_float_truthy interval then interval else 1) = Ok tt ->
  read_linux_proc_at interval stat1 stat2 meminfo = read_linux_proc stat1 stat2 meminfo.
Proof.
  intros H. unfold read_linux_proc_at, read_linux_proc.
  destruct (read_cpu_times stat1) as [t1 |]; cbn [bind]; [| reflexivity].
  destruct (unpack2 t1) as [s1 |]; cbn [bind]; [| reflexivity].
  rewrite H. reflexivity.
Qed.

Lemma meminfo_dict_app (l1 l2 : list string) :
  forall acc d, meminfo_dict (l1 ++ l2) acc = Ok d -> exists acc', meminfo_dict l2 acc' = Ok d.
Proof.
  induction l1 as [| l l1 IH]; intros acc d H; [exists acc; exact H |].
  simpl in H. destruct (split_once ":"%char l) as [[k v] |]; [| discriminate].
  exact (IH _ _ H).
Qed.

Lemma meminfo_dict_other_keys (key : string) (post : list string) :
  Forall (fun l => match split_once ":"%char l with
                   | Some (k', _) => py_strip k' <> key
                   | None => True
                   end) post ->
  forall acc d default, meminfo_dict post acc = Ok d -> dict_get d key default = dict_get acc key default.
Proof.
  induction post as [| l post IH]; intros Hpost acc d default H.
  - injection H as <-. reflexivity.
  - inversion Hpost as [| ? ? Hl Hrest]; subst. simpl in H.
    destruct (split_once ":"%char l) as [[k v] |]; [| discriminate].
    rewrite (IH Hrest _ _ default H). simpl.
    destruct (String.eqb_spec key (py_strip k)) as [E | _]; [| reflexivity].
    exfalso. apply Hl. symmetry. exact E.
Qed.

(** When [/proc/meminfo] repeats a key, the last line with that key gives
    its value, read by [meminfo.get] and by [kb]. *)
Theorem meminfo_last_line_wins (pre post : list string) (line k v : string)
    (d : list (string * string)) :
  split_once ":"%char line = Some (k, v) ->
  Forall (fun l => match split_once ":"%char l with
                   | Some (k', _) => py_strip k' <> py_strip k
                   | None => True
                   end) post ->
  meminfo_dict (pre ++ line :: post) [] = Ok d ->
  (forall default, dict_get d (py_strip k) default = py_strip v)
  /\ kb d (py_strip k) = (f <- py_index (py_split_ws (py_strip v)) 0 ;; py_float f).
Proof.
  intros Hl Hpost Hd.
  destruct (meminfo_dict_app pre (line :: post) [] d Hd) as [acc Hacc].
  simpl in Hacc. rewrite Hl in Hacc.
  assert (G : forall default, dict_get d (py_strip k) default = py_strip v).
  { intros default. rewrite (meminfo_dict_other_keys _ _ Hpost _ _ default Hacc).
    simpl. rewrite String.eqb_refl. reflexivity. }
  split; [exact G |]. unfold kb. rewrite G. reflexivity.
Qed.

Lemma meminfo_last_line_wins_witness :
  meminfo_dict (["MemTotal: 1 kB"; "MemTotal: 2 kB"]%string) [] = Ok [("MemTotal", "2 kB"); ("MemTotal", "1 kB")]%string
  /\ kb [("MemTotal", "2 kB"); ("MemTotal", "1 kB")]%string (py_strip "MemTotal") = Ok 2%float.
Proof.
  assert (E : meminfo_dict (["MemTotal: 1 kB"; "MemTotal: 2 kB"]%string) []
              = Ok [("MemTotal", "2 kB"); ("MemTotal", "1 kB")]%string) by (vm_compute; reflexivity).
  split; [exact E |].
  rewrite (proj2 (meminfo_last_line_wins ["MemTotal: 1 kB"]%string [] "MemTotal: 2 kB" "MemTotal" " 2 kB"
                    _ eq_refl (Forall_nil _) E)).
  vm_compute. reflexivity.
Defined.

(** ** Value ranges of the readers and the y axis *)
Lemma sfdiv_unit (m1 m2 : positive) (e1 e2 : Z) :
  e1 <= e2 -> Zpos m1 <= Zpos m2 * 2 ^ (e2 - e1) ->
  match SFdiv prec emax (S754_finite false m1 e1) (S754_finite false m2 e2) with
  | S754_zero _ => True
  | S754_finite false m e => e <= -52 /\ Zpos m <= 4503599627370496 * 2 ^ (-52 - e)
  | _ => False
  end.
Proof.
  intros He Hm. unfold SFdiv.
  pose proof (div_core_spec m1 m2 e1 e2) as Hc.
  destruct (SFdiv_core_binary prec emax (Zpos m1) e1 (Zpos m2) e2) as [[q e'] l].
  destruct Hc as [He1 [He2 [Hq [Hqm Hql]]]].
  pose proof (digits_le m1 m2 (e2 - e1) ltac:(lia) Hm) as Hdig.
  assert (He' : e' <= -53) by (unfold_fexp; lia).
  assert (Hpow : Zpos m1 * 2 ^ (e1 - e2 - e') <= Zpos m2 * 2 ^ (- e')).
  { replace (- e') with ((e2 - e1) + (e1 - e2 - e')) by lia.
    rewrite Z.pow_add_r by lia.
    assert (0 < 2 ^ (e1 - e2 - e')) by (apply Z.pow_pos_nonneg; lia). nia. }
  assert (Hsc : 4503599627370496 * 2 ^ (-52 - e') = 2 ^ (- e')).
  { replace (- e') with (52 + (-52 - e')) by lia.
    rewrite Z.pow_add_r by lia. reflexivity. }
  pose proof (round_aux_le q e' l 4503599627370496 (-52) Hq ltac:(lia)
                ltac:(reflexivity) ltac:(unfold_fexp; lia)) as R.
  rewrite Hsc in R. specialize (R ltac:(nia)).
  specialize (R ltac:(intro Hi; specialize (Hql Hi); nia)).
  change (xorb false false) with false.
  destruct (binary_round_aux prec emax false q e' l) as [s' | | | [] m' e'']; try contradiction.
  - exact I.
  - exact R.
Qed.

Lemma sf_infinity : Prim2SF infinity = S754_infinity false.
Proof. reflexivity. Qed.

Lemma float_div_unit (x y : float) :
  (0 <=? x)%float = true -> (x <=? y)%float = true -> (0 <? y)%float = true ->
  (y <? infinity)%float = true ->
  (0 <=? x / y)%float = true /\ (x / y <=? 1)%float = true.
Proof.
  rewrite !leb_spec, !ltb_spec, FloatAxioms.div_spec, sf_one, sf_infinity.
  change (Prim2SF 0) with (S754_zero false).
  pose proof (Prim2SF_valid x) as Hvx. pose proof (Prim2SF_valid y) as Hvy.
  intros H0 H1 H2 H3.
  destruct (Prim2SF y) as [sy | sy | | sy my ey]; try discriminate;
    [destruct sy; discriminate |].
  destruct sy; [discriminate |].
  destruct (Prim2SF x) as [sx | sx | | sx mx ex]; try discriminate.
  - destruct sx; split; reflexivity.
  - destruct sx; discriminate.
  - destruct sx; [discriminate |].
    destruct (bound_of_leb mx my ex ey Hvx Hvy H1) as [He Hm].
    pose proof (sfdiv_unit mx my ex ey He Hm) as D.
    unfold SF64div.
    destruct (SFdiv prec emax (S754_finite false mx ex) (S754_finite false my ey))
      as [s | | | [] m e]; try contradiction.
    + destruct s; split; reflexivity.
    + split; [reflexivity |]. destruct D. apply leb_of_bound; assumption.
Qed.

Lemma shl_align_spec (m : positive) (e e' : Z) :
  snd (shl_align m e e') = Z.min e e'
  /\ Zpos (fst (shl_align m e e')) = Zpos m * 2 ^ (e - snd (shl_align m e e')).
Proof.
  unfold shl_align. destruct (e' - e) as [| d | d] eqn:E; cbn [fst snd].
  - split; [lia |]. rewrite Z.sub_diag. lia.
  - split; [lia |]. rewrite Z.sub_diag. lia.
  - split; [lia |]. rewrite iter_xO_mul. f_equal. f_equal. lia.
Qed.

Lemma binary_normalize_unit (z e : Z) :
  0 <= z -> e <= -52 -> z <= 2 ^ (- e) ->
  match binary_normalize prec emax z e false with
  | S754_zero _ => True
  | S754_finite false m e' => e' <= -52 /\ Zpos m <= 4503599627370496 * 2 ^ (-52 - e')
  | _ => False
  end.
Proof.
  intros Hz He Hb. destruct z as [| p | p]; [exact I | | lia].
  unfold binary_normalize, binary_round.
  pose proof (shl_align_spec p e (fexp prec emax (Zpos (digits2_pos p) + e))) as [Hs Hm].
  destruct (shl_align p e (fexp prec emax (Zpos (digits2_pos p) + e))) as [mz ez].
  cbn [fst snd] in Hs, Hm.
  assert (Hsc : 4503599627370496 * 2 ^ (-52 - ez) = 2 ^ (- ez)).
  { replace (- ez) with (52 + (-52 - ez)) by lia.
    rewrite Z.pow_add_r by lia. reflexivity. }
  pose proof (round_aux_le (Zpos mz) ez loc_Exact 4503599627370496 (-52) ltac:(lia) ltac:(lia)
                ltac:(reflexivity) ltac:(unfold_fexp; lia)) as R.
  rewrite Hsc in R.
  specialize (R ltac:(rewrite Hm; replace (- ez) with ((- e) + (e - ez)) by lia;
                      rewrite Z.pow_add_r by lia;
                      apply Z.mul_le_mono_nonneg_r; [apply Z.pow_nonneg; lia | exact Hb])).
  specialize (R ltac:(discriminate)).
  destruct (binary_round_aux prec emax false (Zpos mz) ez loc_Exact) as [| | | [] m' e'']; exact R.
Qed.

Lemma float_sub_unit (q : float) :
  (0 <=? q)%float = true -> (q <=? 1)%float = true ->
  (0 <=? 1 - q)%float = true /\ (1 - q <=? 1)%float = true.
Proof.
  rewrite !leb_spec, sub_spec, sf_one.
  change (Prim2SF 0) with (S754_zero false).
  pose proof (Prim2SF_valid q) as Hv.
  intros H0 H1.
  destruct (Prim2SF q) as [s | s | | s m e]; try discriminate.
  - split; reflexivity.
  - destruct s; discriminate.
  - destruct s; [discriminate |].
    destruct (bound_of_leb m 4503599627370496 e (-52) Hv ltac:(reflexivity) H1) as [He Hm].
    unfold SF64sub, SFsub.
    pose proof (shl_align_spec 4503599627370496 (-52) (Z.min (-52) e)) as [S1 M1].
    pose proof (shl_align_spec m e (Z.min (-52) e)) as [S2 M2].
    replace (Z.min (-52) e) with e in * by lia.
    rewrite Z.min_r in S1 by lia. rewrite Z.min_id in S2.
    rewrite S1 in M1. rewrite S2, Z.sub_diag, Z.pow_0_r, Z.mul_1_r in M2.
    cbn [cond_Zopp]. rewrite M1, M2.
    assert (Hsc : 4503599627370496 * 2 ^ (-52 - e) = 2 ^ (- e)).
    { replace (- e) with (52 + (-52 - e)) by lia.
      rewrite Z.pow_add_r by lia. reflexivity. }
    rewrite Hsc in Hm |- *.
    pose proof (binary_normalize_unit (2 ^ (- e) - Zpos m) e ltac:(lia) He ltac:(lia)) as B.
    destruct (binary_normalize prec emax (2 ^ (- e) - Zpos m) e false) as [s' | | | [] m' e'];
      try contradiction.
    + destruct s'; split; reflexivity.
    + split; [reflexivity |]. destruct B. apply leb_of_bound; assumption.
Qed.

Lemma float_mul_comm (a b : float) : (a * b)%float = (b * a)%float.
Proof.
  apply Prim2SF_inj. rewrite !mul_spec. unfold SF64mul, SFmul.
  destruct (Prim2SF a) as [sa | sa | | sa ma ea], (Prim2SF b) as [sb | sb | | sb mb eb];
    try reflexivity; try (rewrite xorb_comm; reflexivity).
  rewrite xorb_comm, Pos.mul_comm, Z.add_comm. reflexivity.
Qed.

Lemma percent_of_fraction (q : float) :
  (0 <=? q)%float = true -> (q <=? 1)%float = true -> hist_ok (100 * (1 - q))%float.
Proof.
  intros H0 H1. destruct (float_sub_unit q H0 H1) as [R0 R1].
  rewrite float_mul_comm.
  pose proof (mul_bound (1 - q) 100 7036874417766400 (-46) R0 R1 sf_hundred) as M.
  unfold hist_ok. rewrite !leb_spec, sf_hundred. change (Prim2SF 0) with (S754_zero false).
  destruct (Prim2SF ((1 - q) * 100)) as [s | | | [] m e]; try contradiction.
  - destruct s; split; reflexivity.
  - split; [reflexivity |]. destruct M. apply leb_of_bound; assumption.
Qed.

(** The memory percentage [100 * (1 - avail / total)] lies in [[0, 100]]
    when [MemAvailable] lies between [0] and a finite positive [MemTotal]. *)
Theorem meminfo_percent_in_range (contents : string) (d : list (string * string)) (t a : float) :
  meminfo_dict (py_file_lines contents) [] = Ok d ->
  kb d "MemTotal" = Ok t -> kb d "MemAvailable" = Ok a ->
  (0 <? t)%float = true -> (t <? infinity)%float = true ->
  (0 <=? a)%float = true -> (a <=? t)%float = true ->
  read_meminfo (Some contents) = Ok (Some (100 * (1 - a / t))%float)
  /\ hist_ok (100 * (1 - a / t))%float.
Proof.
  intros Hd Ht Ha Hpos Hfin H0 Hle.
  split.
  - unfold read_meminfo. cbn [bind]. rewrite Hd. cbn [bind]. rewrite Ht. cbn [bind].
    rewrite Ha. cbn [bind]. rewrite Hpos. reflexivity.
  - destruct (float_div_unit a t H0 Hle Hpos Hfin) as [Q0 Q1].
    exact (percent_of_fraction (a / t) Q0 Q1).
Qed.

Lemma meminfo_percent_in_range_witness :
  read_meminfo (Some meminfo_60) = Ok (Some 60%float) /\ hist_ok 60%float.
Proof.
  assert (E : (100 * (1 - 40 / 100))%float = 60%float) by (vm_compute; reflexivity).
  rewrite <- E.
  apply (meminfo_percent_in_range meminfo_60
           [("MemAvailable"%string, "40 kB"%string); ("MemFree"%string, "10 kB"%string);
            ("MemTotal"%string, "100 kB"%string)] 100 40);
    vm_compute; reflexivity.
Defined.

Lemma digits_lt_pow (p : positive) (k : Z) : Zpos p < 2 ^ k -> Zpos (digits2_pos p) <= k.
Proof.
  intros H. pose proof (digits2_bounds p) as [Hl _].
  destruct (Z.le_gt_cases 0 k) as [Hk | Hk].
  - assert (H' : 2 ^ (Zpos (digits2_pos p) - 1) < 2 ^ k) by lia.
    apply Z.pow_lt_mono_r_iff in H'; lia.
  - rewrite Z.pow_neg_r in H by lia. lia.
Qed.

Lemma pow_le_digits (p : positive) (k : Z) :
  0 <= k -> 2 ^ k <= Zpos p -> k < Zpos (digits2_pos p).
Proof.
  intros Hk H. pose proof (digits2_bounds p) as [_ Hh].
  assert (H' : 2 ^ k < 2 ^ Zpos (digits2_pos p)) by lia.
  apply Z.pow_lt_mono_r_iff in H'; lia.
Qed.

Lemma canonical_range (p : positive) (e : Z) :
  Zpos p < 2 ^ 53 -> SpecFloat.emin prec emax <= e ->
  (2 ^ 52 <= Zpos p \/ e = SpecFloat.emin prec emax) ->
  fexp prec emax (Zpos (digits2_pos p) + e) = e.
Proof.
  intros H53 He H. pose proof (digits_lt_pow p 53 H53) as Hd.
  destruct H as [H52 | He'].
  - pose proof (pow_le_digits p 52 ltac:(lia) H52). unfold_fexp. lia.
  - unfold_fexp. lia.
Qed.

(** [binary_round_aux] returns a valid float when its mantissa has at least
    the digits the exponent calls for. *)
Lemma round_aux_valid (mx ex : Z) (lx : location) :
  0 <= mx -> ex <= fexp prec emax (Zdigits2 mx + ex) ->
  valid_binary (binary_round_aux prec emax false mx ex lx) = true.
Proof.
  intros Hm Hex. unfold binary_round_aux.
  destruct (shr_fexp_spec mx ex lx Hm) as [M1 [E1 [P1 _]]].
  destruct (shr_fexp prec emax mx ex lx) as [r1 e1]. cbn [fst snd] in *.
  remember (fexp prec emax (Zdigits2 mx + ex)) as F eqn:HF.
  replace (Z.max 0 (F - ex)) with (F - ex) in M1, E1 by lia.
  assert (HeF : e1 = F) by lia.
  assert (HFmin : SpecFloat.emin prec emax <= F) by (rewrite HF; apply fexp_ge_emin).
  assert (Hp1 : 0 < 2 ^ (F - ex)) by (apply Z.pow_pos_nonneg; lia).
  assert (R1 : shr_m r1 < 2 ^ 53 /\ (2 ^ 52 <= shr_m r1 \/ F = SpecFloat.emin prec emax)).
  { rewrite M1. destruct mx as [| p | p]; [| | lia].
    - rewrite Zdiv_0_l. split; [lia |]. right. cbn [Zdigits2] in HF. unfold_fexp. lia.
    - rewrite Zdigits2_pos in HF. pose proof (digits2_bounds p) as [Hlo Hhi].
      set (D := Zpos (digits2_pos p)) in *.
      destruct (Z.le_gt_cases (D + ex - 53) (SpecFloat.emin prec emax)) as [Hc | Hc].
      + assert (HFe : F = SpecFloat.emin prec emax) by (unfold_fexp; lia).
        split; [| right; exact HFe].
        apply Z.div_lt_upper_bound; [lia |].
        rewrite <- Z.pow_add_r by lia.
        apply Z.lt_le_trans with (2 ^ D); [lia |].
        apply Z.pow_le_mono_r; [lia |]. unfold_fexp. lia.
      + assert (HFe : F = D + ex - 53) by (unfold_fexp; lia).
        rewrite HFe. replace (D + ex - 53 - ex) with (D - 53) by lia.
        assert (HD : 53 <= D) by lia.
        assert (Hs : 2 ^ D = 2 ^ (D - 53) * 2 ^ 53) by (rewrite <- Z.pow_add_r by lia; f_equal; lia).
        assert (Hs' : 2 ^ (D - 1) = 2 ^ (D - 53) * 2 ^ 52)
          by (rewrite <- Z.pow_add_r by lia; f_equal; lia).
        split; [apply Z.div_lt_upper_bound; lia |].
        left. apply Z.div_le_lower_bound; lia. }
  set (m2 := round_nearest_even (shr_m r1) (loc_of_shr_record r1)).
  pose proof (round_nearest_even_bounds r1) as Hr. fold m2 in Hr.
  assert (Hm2 : 0 <= m2 <= 2 ^ 53 /\ (2 ^ 52 <= m2 \/ F = SpecFloat.emin prec emax)).
  { destruct (shr_r r1 || shr_s r1); lia. }
  clearbody m2.
  destruct (shr_fexp_spec m2 e1 loc_Exact ltac:(lia)) as [M2 [E2 [P2 _]]].
  destruct (shr_fexp prec emax m2 e1 loc_Exact) as [r2 e2]. cbn [fst snd] in *.
  assert (Fin : shr_m r2 = 0
                \/ exists p, shr_m r2 = Zpos p /\ fexp prec emax (Zpos (digits2_pos p) + e2) = e2).
  { destruct (Z.eq_dec m2 (2 ^ 53)) as [E53 | N53].
    - subst m2. change (Zdigits2 (2 ^ 53)) with 54 in M2, E2.
      assert (Hn : Z.max 0 (fexp prec emax (54 + e1) - e1) = 1) by (unfold_fexp; lia).
      rewrite Hn in M2, E2. change (2 ^ 53 / 2 ^ 1) with (2 ^ 52) in M2.
      right. exists 4503599627370496%positive. split; [exact M2 |].
      rewrite E2. apply canonical_range; [reflexivity | lia | left; reflexivity].
    - destruct m2 as [| p | p]; [| | lia].
      + left. rewrite M2. apply Zdiv_0_l.
      + right. exists p.
        assert (Hc : fexp prec emax (Zpos (digits2_pos p) + e1) = e1)
          by (apply canonical_range; lia).
        rewrite Zdigits2_pos, Hc, Z.sub_diag in M2, E2. cbn [Z.max] in M2, E2.
        rewrite Z.pow_0_r, Z.div_1_r in M2. rewrite Z.add_0_r in E2. subst e2.
        split; [exact M2 | exact Hc]. }
  destruct Fin as [-> | [p [-> Hc]]]; [reflexivity |].
  destruct (e2 <=? emax - prec) eqn:Eb; [| reflexivity].
  cbn [valid_binary]. unfold bounded, canonical_mantissa. rewrite Hc, Z.eqb_refl, Eb. reflexivity.
Qed.

Lemma digits_div_ge (a b : Z) : 0 <= a -> 0 < b -> Zdigits2 a - Zdigits2 b <= Zdigits2 (a / b).
Proof.
  intros Ha Hb. destruct b as [| pb | pb]; try lia.
  pose proof (digits2_bounds pb) as [_ Hbh]. rewrite Zdigits2_pos.
  destruct a as [| pa | pa]; [rewrite Zdiv_0_l; cbn [Zdigits2]; lia | | lia].
  rewrite Zdigits2_pos.
  pose proof (Z.div_pos (Zpos pa) (Zpos pb) ltac:(lia) ltac:(lia)) as Hq.
  pose proof (Z.div_mod (Zpos pa) (Zpos pb) ltac:(lia)) as Hdm.
  pose proof (Z.mod_pos_bound (Zpos pa) (Zpos pb) ltac:(lia)) as Hmod.
  destruct (Zpos pa / Zpos pb) as [| pq | pq] eqn:Eq; [| | lia].
  - cbn [Zdigits2]. pose proof (digits_lt_pow pa (Zpos (digits2_pos pb)) ltac:(lia)). lia.
  - rewrite Zdigits2_pos. pose proof (digits2_bounds pq) as [_ Hqh].
    assert (Hlt : Zpos pa < 2 ^ (Zpos (digits2_pos pq) + Zpos (digits2_pos pb))).
    { rewrite Z.pow_add_r by lia. nia. }
    pose proof (digits_lt_pow pa _ Hlt). lia.
Qed.

Lemma div_core_aligned (m1 m2 : positive) (e1 e2 : Z) :
  match SFdiv_core_binary prec emax (Zpos m1) e1 (Zpos m2) e2 with
  | (q, e', l) => 0 <= q /\ e' <= fexp prec emax (Zdigits2 q + e')
  end.
Proof.
  unfold SFdiv_core_binary. rewrite !Zdigits2_pos.
  set (e' := Z.min (fexp prec emax (Zpos (digits2_pos m1) + e1 - (Zpos (digits2_pos m2) + e2)))
               (e1 - e2)).
  assert (Hs : 0 <= e1 - e2 - e') by lia.
  assert (Hm' : match e1 - e2 - e' with
                | Zpos _ => Z.shiftl (Zpos m1) (e1 - e2 - e')
                | Z0 => Zpos m1
                | Zneg _ => 0
                end = Zpos m1 * 2 ^ (e1 - e2 - e')).
  { destruct (e1 - e2 - e') eqn:E; [lia | | lia].
    rewrite Z.shiftl_mul_pow2 by lia. reflexivity. }
  rewrite Hm'.
  assert (Hq : fst (Z.div_eucl (Zpos m1 * 2 ^ (e1 - e2 - e')) (Zpos m2))
               = Zpos m1 * 2 ^ (e1 - e2 - e') / Zpos m2) by reflexivity.
  destruct (Z.div_eucl (Zpos m1 * 2 ^ (e1 - e2 - e')) (Zpos m2)) as [q r].
  cbn [fst] in Hq. subst q.
  assert (Hp : 0 < 2 ^ (e1 - e2 - e')) by (apply Z.pow_pos_nonneg; lia).
  split; [apply Z.div_pos; lia |].
  assert (HX : Zpos (digits2_pos m1) + (e1 - e2 - e') <= Zdigits2 (Zpos m1 * 2 ^ (e1 - e2 - e'))).
  { pose proof (digits2_bounds m1) as [Hl _].
    destruct (Zpos m1 * 2 ^ (e1 - e2 - e')) as [| px | px] eqn:EX; [nia | | nia].
    rewrite Zdigits2_pos.
    assert (Hpx : 2 ^ (Zpos (digits2_pos m1) - 1 + (e1 - e2 - e')) <= Zpos px)
      by (rewrite Z.pow_add_r by lia; nia).
    pose proof (pow_le_digits px (Zpos (digits2_pos m1) - 1 + (e1 - e2 - e')) ltac:(lia) Hpx) as Hdp. lia. }
  pose proof (digits_div_ge (Zpos m1 * 2 ^ (e1 - e2 - e')) (Zpos m2) ltac:(lia) ltac:(lia)) as Hd.
  rewrite Zdigits2_pos in Hd.
  apply Z.le_trans with (fexp prec emax (Zpos (digits2_pos m1) + e1 - (Zpos (digits2_pos m2) + e2)));
    [lia | apply fexp_mono; lia].
Qed.

Lemma sfdiv_valid (m1 m2 : positive) (e1 e2 : Z) :
  valid_binary (SFdiv prec emax (S754_finite false m1 e1) (S754_finite false m2 e2)) = true.
Proof.
  unfold SFdiv. pose proof (div_core_aligned m1 m2 e1 e2) as Hc.
  destruct (SFdiv_core_binary prec emax (Zpos m1) e1 (Zpos m2) e2) as [[q e'] l].
  destruct Hc as [Hq He]. change (xorb false false) with false.
  apply round_aux_valid; assumption.
Qed.

Lemma int_truediv_unit (a b : Z) :
  0 <= a <= b -> 0 < b ->
  exists q, py_int_truediv a b = Ok q /\ (0 <=? q)%float = true /\ (q <=? 1)%float = true.
Proof.
  intros Hab Hb. unfold py_int_truediv.
  replace (b =? 0) with false by (symmetry; apply Z.eqb_neq; lia).
  destruct b as [| pb | pb]; try lia.
  destruct a as [| pa | pa]; [| | lia].
  - exists 0%float. split; [reflexivity | split; reflexivity].
  - cbn [sf_of_Z].
    pose proof (sfdiv_unit pa pb 0 0 ltac:(lia) ltac:(rewrite Z.pow_0_r; lia)) as U.
    pose proof (sfdiv_valid pa pb 0 0) as V.
    destruct (SFdiv prec emax (S754_finite false pa 0) (S754_finite false pb 0))
      as [s | | | [] m e] eqn:E; try contradiction.
    + exists (SF2Prim (S754_zero s)). split; [reflexivity |].
      rewrite !leb_spec, (Prim2SF_SF2Prim _ V), sf_one. destruct s; split; reflexivity.
    + exists (SF2Prim (S754_finite false m e)). split; [reflexivity |].
      rewrite !leb_spec, (Prim2SF_SF2Prim _ V), sf_one. split; [reflexivity |].
      destruct U. apply leb_of_bound; assumption.
Qed.

(** The cpu percentage lies in [[0, 100]] when the idle counter grew by at
    most the growth of the total counter, and the total counter grew. *)
Theorem cpu_percent_in_range (idle1 total1 idle2 total2 : Z) :
  0 <= idle2 - idle1 <= total2 - total1 -> 0 < total2 - total1 ->
  exists p, cpu_of_snapshots (idle1, total1) (idle2, total2) = Ok (Some p) /\ hist_ok p.
Proof.
  intros Hi Ht.
  destruct (int_truediv_unit (idle2 - idle1) (total2 - total1) Hi Ht) as [q [Hq [Q0 Q1]]].
  exists (100 * (1 - q))%float. split.
  - unfold cpu_of_snapshots.
    replace (0 <? total2 - total1) with true by (symmetry; apply Z.ltb_lt; lia).
    rewrite Hq. reflexivity.
  - exact (percent_of_fraction q Q0 Q1).
Qed.

Lemma cpu_percent_in_range_witness :
  cpu_of_snapshots (100, 1000) (110, 1100) = Ok (Some 90%float) /\ hist_ok 90%float.
Proof.
  destruct (cpu_percent_in_range 100 1000 110 1100 ltac:(lia) ltac:(lia)) as [p [Hp Hok]].
  assert (Hc : cpu_of_snapshots (100, 1000) (110, 1100) = Ok (Some 90%float))
    by (vm_compute; reflexivity).
  rewrite Hc in Hp. injection Hp as <-. split; [exact Hc | exact Hok].
Defined.

Lemma row_label_blank (h : Z) (ticks : list Z) (row : Z) :
  ~ In row ticks -> row_label h ticks row = Ok "   "%string.
Proof.
  intros Hn. unfold row_label.
  destruct (existsb (Z.eqb row) ticks) eqn:E; [| reflexivity].
  apply existsb_exists in E as [x [Hx Hxe]]. apply Z.eqb_eq in Hxe. subst x. contradiction.
Qed.

(** For every terminal size the y axis has exactly five labelled rows: the
    top row [100], three rows in between with labels strictly decreasing
    inside [(0, 100)], and the bottom row [0]; the other rows are blank.
    The middle labels are not always [75], [50] and [25]: they are for the
    heights 13, 17 and 21 only, and the height 10 gives [78], [44] and
    [22]. *)
Theorem axis_five_labels (lines : Z) :
  let h := canvas_height lines in
  exists t1 t2 t3 v1 v2 v3,
    tick_rows h = Ok [0; t1; t2; t3; h - 1]
    /\ 0 < t1 < t2 /\ t2 < t3 < h - 1
    /\ map (row_label h [0; t1; t2; t3; h - 1]) [0; t1; t2; t3; h - 1]
       = [Ok "100"%string; Ok (pad_left 3 (py_str_int v1)); Ok (pad_left 3 (py_str_int v2));
          Ok (pad_left 3 (py_str_int v3)); Ok "  0"%string]
    /\ 0 < v3 < v2 /\ v2 < v1 < 100
    /\ (forall row, ~ In row [0; t1; t2; t3; h - 1] ->
          row_label h [0; t1; t2; t3; h - 1] row = Ok "   "%string)
    /\ ((v1, v2, v3) = (75, 50, 25) <-> h = 13 \/ h = 17 \/ h = 21)
    /\ (h = 10 -> (v1, v2, v3) = (78, 44, 22)).
Proof.
  cbv zeta. pose proof (canvas_height_cases lines) as H.
  set (h := canvas_height lines) in *. clearbody h. cbn in H.
  destruct H as [<- | [<- | [<- | [<- | [<- | [<- | [<- | [<- | [<- | [<- | [<- | [<- | [<- | [<- | [<- | []]]]]]]]]]]]]]]];
  [ exists 2, 5, 7, 78, 44, 22 | exists 2, 5, 8, 80, 50, 20 | exists 3, 6, 9, 73, 45, 18
  | exists 3, 6, 9, 75, 50, 25 | exists 3, 7, 10, 77, 46, 23 | exists 3, 7, 11, 79, 50, 21
  | exists 4, 8, 12, 73, 47, 20 | exists 4, 8, 12, 75, 50, 25 | exists 4, 9, 13, 76, 47, 24
  | exists 4, 9, 14, 78, 50, 22 | exists 5, 10, 15, 74, 47, 21 | exists 5, 10, 15, 75, 50, 25
  | exists 5, 11, 16, 76, 48, 24 | exists 5, 11, 17, 77, 50, 23 | exists 6, 12, 18, 74, 48, 22 ];
  (split; [vm_compute; reflexivity |]);
  (split; [lia |]); (split; [lia |]); (split; [vm_compute; reflexivity |]);
  (split; [lia |]); (split; [lia |]);
  (split; [exact (fun row => row_label_blank _ _ row) |]);
  (split; [split; [intros Hv; first [lia | discriminate Hv] | intros Hh; first [reflexivity | lia]] |]);
  intros Hh; first [reflexivity | lia].
Qed.
